(** * Wave Rover MCP bridge: a shallow embedding of [src/index.ts]

    The program keeps one module-level table, [roverConnections], that maps
    generated identifiers to rover addresses, and exposes six tools.  Connect
    writes the table; Speed, PWM, cmd_vel, Screen and IMU read it, build a
    JSON command and hand one URL to [axios.get].  Two express routes pick a
    client identifier for the transport.

    Conventions of the embedding:
    - a JavaScript string is a Rocq [string], read as the UTF-8 bytes of
      well-formed text;
    - a JavaScript number is a sign with an exact decimal [m * 10^e], or an
      infinity; NaN is left out because [z.number()] rejects it and
      [JSON.parse] never yields it.  An argument of a tool is taken as the
      number it is; a number that the program reads from text is rounded
      to the nearest binary64 number;
    - the [Map] is a [gmap string Rover.t];
    - a tool handler is a function from the world before the call to an
      outcome (a returned value or a thrown exception) and the world after;
      the world is the table and the log of the URLs handed to [axios.get].
      A handler reads the table before its only [await] and never after,
      so running it in one step loses nothing;
    - the rovers are a function from the URL of a GET to the reply, and
      [axios.get] is modelled with the defaults of the library, which is
      not part of the repository. *)

From Stdlib Require Import ZArith NArith Ascii String List Bool.
From stdpp Require Import base decidable option list strings pretty gmap fin_maps.

Local Open Scope string_scope.
Local Open Scope list_scope.
Local Open Scope Z_scope.

(** ** JavaScript numbers and their string conversion *)

Inductive Number : Type :=
| Decimal (negative : bool) (mantissa : N) (exponent : Z)
| Infinite (negative : bool).

Definition Number_of_Z (z : Z) : Number :=
  Decimal (z <? 0) (Z.to_N (Z.abs z)) 0.

Definition isFinite (x : Number) : bool :=
  match x with Decimal _ _ _ => true | Infinite _ => false end.

(** Texts as lists of characters, for the functions that build or read them
    character by character. *)
Module Str.

Definition chars (s : string) : list ascii := list_ascii_of_string s.
Definition of_chars (l : list ascii) : string := string_of_list_ascii l.

Fixpoint drop_zeros (l : list ascii) : list ascii :=
  match l with
  | "0"%char :: l' => drop_zeros l'
  | _ => l
  end.

Definition zeros (n : nat) : list ascii := repeat "0"%char n.

Definition dquote : ascii := ascii_of_N 34.

(** Writes a text that holds double quotes with single quotes in their
    place: [dq "{'T':1}"] is the text [{"T":1}]. *)
Definition dq (s : string) : string :=
  of_chars (map (fun c => if Ascii.eqb c "'"%char then dquote else c) (chars s)).

Definition hex_digit (upper : bool) (n : N) : ascii :=
  if (n <? 10)%N then ascii_of_N (48 + n)
  else ascii_of_N ((if upper then 55 else 87) + n).

End Str.

(** The digits of the shortest decimal form: [m] without its trailing zeros,
    and the exponent grown by as many. *)
Definition shortest (m : N) (e : Z) : list ascii * Z :=
  let ds := Str.chars (pretty m) in
  let s := rev (Str.drop_zeros (rev ds)) in
  (s, e + Z.of_nat (length ds - length s)).

(** [Number::toString] of ECMAScript, radix 10: with [k] digits [s] and the
    decimal point after the [n]-th of them. *)
Definition Number_toString (x : Number) : string :=
  match x with
  | Infinite neg => if neg then "-Infinity" else "Infinity"
  | Decimal neg m e =>
    if (m =? 0)%N then "0" else
    let '(s, e') := shortest m e in
    let k := Z.of_nat (length s) in
    let n := e' + k in
    let body :=
      if (-5 <=? n) && (n <=? 21) then
        if k <=? n then s ++ Str.zeros (Z.to_nat (n - k))
        else if 0 <? n then take (Z.to_nat n) s ++ "."%char :: drop (Z.to_nat n) s
        else "0"%char :: "."%char :: Str.zeros (Z.to_nat (- n)) ++ s
      else
        let c := if n - 1 <? 0 then "-"%char else "+"%char in
        let d := Str.chars (pretty (Z.to_N (Z.abs (n - 1)))) in
        if k =? 1 then s ++ "e"%char :: c :: d
        else take 1 s ++ "."%char :: drop 1 s ++ "e"%char :: c :: d in
    Str.of_chars (if neg then "-"%char :: body else body)
  end.

(** ** Numbers read from text

    [JSON.parse] and [parseInt] give the binary64 number nearest to the
    numeral they read, ties to the even significand; a numeral beyond the
    range is an infinity and one below it is zero.  The number is held by
    its shortest decimal form, the one [Number::toString] prints: an
    integer as [Decimal _ m 0], any other as [Decimal _ s p] with [p]
    negative and [s] not a multiple of ten. *)

Module Binary64.

Definition pow2 (k : Z) : N := (2 ^ Z.to_N k)%N.
Definition pow10 (k : Z) : N := (10 ^ Z.to_N k)%N.

(** [2^p <= num / den] and [10^p <= num / den], for [den] positive. *)
Definition ge_pow2 (num den : N) (p : Z) : bool :=
  (den * pow2 p <=? num * pow2 (- p))%N.
Definition ge_pow10 (num den : N) (p : Z) : bool :=
  (den * pow10 p <=? num * pow10 (- p))%N.

Definition decimal_digits (n : N) : Z := Z.of_nat (String.length (pretty n)).

(** The integer parts of the logarithms of [num / den], both positive. *)
Definition floor_log2 (num den : N) : Z :=
  let g := Z.of_N (N.log2 num) - Z.of_N (N.log2 den) in
  if ge_pow2 num den g then g else g - 1.
Definition floor_log10 (num den : N) : Z :=
  let g := decimal_digits num - decimal_digits den in
  if ge_pow10 num den g then g else g - 1.

(** [a / b] rounded to the nearest integer, a tie to the even one. *)
Definition round_div (a b : N) : N :=
  let '(q, r) := N.div_eucl a b in
  match (2 * r ?= b)%N with
  | Lt => q
  | Gt => (q + 1)%N
  | Eq => if N.even q then q else (q + 1)%N
  end.

(** The binary64 number nearest to [num / den]: [Some (M, E)] stands for
    [M * 2^E] with [M] below [2^53] and [E] from -1074 to 971, [M] at least
    [2^52] unless [E] is -1074; [None] for a value that rounds beyond the
    largest number. *)
Definition nearest (num den : N) : option (N * Z) :=
  let E := Z.max (floor_log2 num den - 52) (- 1074) in
  let M := round_div (num * pow2 (- E)) (den * pow2 E) in
  let '(M, E) := if (M =? 2 ^ 53)%N then ((2 ^ 52)%N, E + 1) else (M, E) in
  if 971 <? E then None else Some (M, E).

Definition nearest_decimal (s : N) (p : Z) : option (N * Z) :=
  nearest (s * pow10 p) (pow10 (- p)).

Definition same (a : option (N * Z)) (M : N) (E : Z) : bool :=
  match a with
  | Some (M', E') => (M' =? M)%N && (E' =? E)
  | None => false
  end.

(** The shortest decimal [s * 10^p] whose nearest binary64 number is
    [M * 2^E], which is [xn / xd] and lies from [10^(n - 1)] up to [10^n]:
    with [k] digits, the only candidates are the two multiples of
    [10^(n - k)] around it, the closer one first. *)
Fixpoint shortest_from (fuel : nat) (k : Z) (M : N) (E : Z) (xn xd : N) (n : Z)
  : N * Z :=
  let p := n - k in
  let '(lo, r) := N.div_eucl (xn * pow10 (- p)) (xd * pow10 p) in
  let hi := (lo + 1)%N in
  let lo_ok := same (nearest_decimal lo p) M E in
  let hi_ok := same (nearest_decimal hi p) M E in
  let lo_first :=
    match (2 * r ?= xd * pow10 p)%N with
    | Lt => true
    | Gt => false
    | Eq => N.even lo
    end in
  if lo_ok && (lo_first || negb hi_ok) then (lo, p)
  else if hi_ok then (hi, p)
  else
    match fuel with
    | O => (lo, p)
    | S fuel' => shortest_from fuel' (k + 1) M E xn xd n
    end.

Fixpoint strip_zeros (fuel : nat) (s : N) (p : Z) : N * Z :=
  match fuel with
  | O => (s, p)
  | S fuel' =>
    if (0 <? s)%N && (s mod 10 =? 0)%N then strip_zeros fuel' (s / 10)%N (p + 1)
    else (s, p)
  end.

Definition normal (negative : bool) (s : N) (p : Z) : Number :=
  let '(s, p) := strip_zeros 20 s p in
  if 0 <=? p then Decimal negative (s * pow10 p) 0 else Decimal negative s p.

(** The number that reading the numeral [m * 10^e] gives.  An integer
    below [2^53] is a binary64 number and its own shortest form. *)
Definition round (x : Number) : Number :=
  match x with
  | Infinite _ => x
  | Decimal negative m e =>
    if (m =? 0)%N then Decimal negative 0 0
    else if (e =? 0) && (m <? 2 ^ 53)%N then Decimal negative m 0
    else
      let d := decimal_digits m in
      if 310 <? e + d then Infinite negative
      else if e + d <? - 330 then Decimal negative 0 0
      else
        match nearest_decimal m e with
        | None => Infinite negative
        | Some (M, E) =>
          if (M =? 0)%N then Decimal negative 0 0
          else
            let xn := (M * pow2 E)%N in
            let xd := pow2 (- E) in
            let '(s, p) := shortest_from 17 1 M E xn xd (floor_log10 xn xd + 1) in
            normal negative s p
        end
  end.

End Binary64.

(** ** JavaScript values that cross [JSON.stringify] and [JSON.parse] *)

Local Set Warnings "-register-all".

Inductive JSValue : Type :=
| JSNull
| JSBoolean (b : bool)
| JSNumber (x : Number)
| JSString (s : string)
| JSArray (items : list JSValue)
| JSObject (fields : list (string * JSValue)).

(** [QuoteJSONString]: the two-character escapes, [\u00xx] for the other
    control characters, every other byte as it is. *)
Definition quote_char (c : ascii) : list ascii :=
  let n := N_of_ascii c in
  if (n =? 8)%N then Str.chars "\b"
  else if (n =? 9)%N then Str.chars "\t"
  else if (n =? 10)%N then Str.chars "\n"
  else if (n =? 12)%N then Str.chars "\f"
  else if (n =? 13)%N then Str.chars "\r"
  else if (n =? 34)%N then ["\"%char; Str.dquote]
  else if (n =? 92)%N then Str.chars "\\"
  else if (n <? 32)%N then
    Str.chars "\u00" ++ [Str.hex_digit false (n / 16); Str.hex_digit false (n mod 16)]
  else [c].

Definition QuoteJSONString (s : string) : string :=
  Str.of_chars (Str.dquote :: flat_map quote_char (Str.chars s) ++ [Str.dquote]).

(** [JSON.stringify] of a number: [null] for an infinity. *)
Definition JSON_number (x : Number) : string :=
  if isFinite x then Number_toString x else "null".

(** [JSON.stringify(v)] without indentation: the fields of an object in
    the order they were written. *)
Fixpoint JSON_stringify (v : JSValue) : string :=
  match v with
  | JSNull => "null"
  | JSBoolean b => if b then "true" else "false"
  | JSNumber x => JSON_number x
  | JSString s => QuoteJSONString s
  | JSArray items => "[" +:+ String.concat "," (map JSON_stringify items) +:+ "]"
  | JSObject fields =>
    "{" +:+ String.concat ","
              (map (fun kv => QuoteJSONString (fst kv) +:+ ":" +:+ JSON_stringify (snd kv)) fields)
        +:+ "}"
  end.

(** Whether an object has an own property of that name. *)
Definition has_own (key : string) (fields : list (string * JSValue)) : bool :=
  existsb (fun kv => String.eqb (fst kv) key) fields.

(** [ToString], as a template literal applies it to [${v}], for a value
    that [JSON.parse] built; [None] stands for the thrown [TypeError].  An
    array is its elements joined by commas, with nothing for a [null]
    element.  A plain object is converted by its [toString]: the inherited
    one gives the fixed text [[object Object]]; an own property of that
    name holds a parsed value, which cannot be called, and then [valueOf],
    own or inherited, gives no primitive either, so the conversion
    throws. *)
Fixpoint ToString (v : JSValue) : option string :=
  match v with
  | JSNull => Some "null"
  | JSBoolean b => Some (if b then "true" else "false")
  | JSNumber x => Some (Number_toString x)
  | JSString s => Some s
  | JSArray items =>
    let element (x : JSValue) : option string :=
      match x with JSNull => Some "" | _ => ToString x end in
    let fix elements (l : list JSValue) : option (list string) :=
      match l with
      | [] => Some []
      | x :: l' =>
        match element x, elements l' with
        | Some t, Some ts => Some (t :: ts)
        | _, _ => None
        end
      end in
    option_map (String.concat ",") (elements items)
  | JSObject fields =>
    if has_own "toString" fields then None else Some "[object Object]"
  end.

(** ** [JSON.parse] *)

Module JSONParser.

Definition is_ws (c : ascii) : bool :=
  let n := N_of_ascii c in
  (n =? 32)%N || (n =? 9)%N || (n =? 10)%N || (n =? 13)%N.

Fixpoint skip_ws (l : list ascii) : list ascii :=
  match l with
  | c :: l' => if is_ws c then skip_ws l' else l
  | [] => []
  end.

Definition is_digit (c : ascii) : bool :=
  let n := N_of_ascii c in (48 <=? n)%N && (n <=? 57)%N.

Fixpoint span_digits (l : list ascii) : list ascii * list ascii :=
  match l with
  | c :: l' =>
    if is_digit c then let '(ds, r) := span_digits l' in (c :: ds, r) else ([], l)
  | [] => ([], [])
  end.

Definition digits_value (ds : list ascii) : N :=
  fold_left (fun acc c => (acc * 10 + (N_of_ascii c - 48))%N) ds 0%N.

Definition hex_value (c : ascii) : option N :=
  let n := N_of_ascii c in
  if (48 <=? n)%N && (n <=? 57)%N then Some (n - 48)%N
  else if (65 <=? n)%N && (n <=? 70)%N then Some (n - 55)%N
  else if (97 <=? n)%N && (n <=? 102)%N then Some (n - 87)%N
  else None.

Definition hex4 (a b c d : ascii) : option N :=
  match hex_value a, hex_value b, hex_value c, hex_value d with
  | Some x, Some y, Some z, Some w => Some (((x * 16 + y) * 16 + z) * 16 + w)%N
  | _, _, _, _ => None
  end.

(** The UTF-8 bytes of a code point (a lone surrogate is written with the
    three-byte pattern). *)
Definition utf8 (cp : N) : list ascii :=
  if (cp <? 128)%N then [ascii_of_N cp]
  else if (cp <? 2048)%N then
    [ascii_of_N (192 + cp / 64); ascii_of_N (128 + cp mod 64)]
  else if (cp <? 65536)%N then
    [ascii_of_N (224 + cp / 4096); ascii_of_N (128 + (cp / 64) mod 64);
     ascii_of_N (128 + cp mod 64)]
  else
    [ascii_of_N (240 + cp / 262144); ascii_of_N (128 + (cp / 4096) mod 64);
     ascii_of_N (128 + (cp / 64) mod 64); ascii_of_N (128 + cp mod 64)].

Definition is_high (u : N) : bool := (55296 <=? u)%N && (u <? 56320)%N.
Definition is_low (u : N) : bool := (56320 <=? u)%N && (u <? 57344)%N.

(** The characters of a string literal after its opening quote. *)
Fixpoint parse_chars (l : list ascii) : option (list ascii * list ascii) :=
  let continue (bytes : list ascii) (r : option (list ascii * list ascii)) :=
    match r with Some (s, rest) => Some (bytes ++ s, rest) | None => None end in
  match l with
  | [] => None
  | c :: l' =>
    if Ascii.eqb c Str.dquote then Some ([], l')
    else if (N_of_ascii c <? 32)%N then None
    else if Ascii.eqb c "\"%char then
      match l' with
      | "u"%char :: a :: b :: c1 :: d :: l2 =>
        match hex4 a b c1 d with
        | None => None
        | Some u =>
          match l2 with
          | "\"%char :: "u"%char :: a' :: b' :: c' :: d' :: l3 =>
            match hex4 a' b' c' d' with
            | Some v =>
              if is_high u && is_low v
              then continue (utf8 (65536 + (u - 55296) * 1024 + (v - 56320))%N)
                            (parse_chars l3)
              else continue (utf8 u) (parse_chars l2)
            | None => continue (utf8 u) (parse_chars l2)
            end
          | _ => continue (utf8 u) (parse_chars l2)
          end
        end
      | e :: l2 =>
        let n := N_of_ascii e in
        let plain (k : N) := continue [ascii_of_N k] (parse_chars l2) in
        if (n =? 34)%N then plain 34%N
        else if (n =? 92)%N then plain 92%N
        else if (n =? 47)%N then plain 47%N
        else if (n =? 98)%N then plain 8%N
        else if (n =? 102)%N then plain 12%N
        else if (n =? 110)%N then plain 10%N
        else if (n =? 114)%N then plain 13%N
        else if (n =? 116)%N then plain 9%N
        else None
      | [] => None
      end
    else continue [c] (parse_chars l')
  end.

(** [-? int frac? exp?], with [int] a lone [0] or a digit string that
    does not start with [0]; the value is the binary64 number nearest to
    the numeral. *)
Definition parse_number (l : list ascii) : option (Number * list ascii) :=
  let '(neg, l1) :=
    match l with "-"%char :: l' => (true, l') | _ => (false, l) end in
  let '(int, l2) :=
    match l1 with
    | "0"%char :: l' => (["0"%char], l')
    | _ => span_digits l1
    end in
  match int with
  | [] => None
  | _ =>
    let frac :=
      match l2 with
      | "."%char :: l' =>
        match span_digits l' with
        | ([], _) => None
        | (ds, r) => Some (ds, r)
        end
      | _ => Some ([], l2)
      end in
    match frac with
    | None => None
    | Some (fs, l3) =>
      let m := digits_value (int ++ fs) in
      let e0 := - Z.of_nat (length fs) in
      let exp (r : list ascii) (sign : Z) :=
        match span_digits r with
        | ([], _) => None
        | (ds, r') =>
          Some (Binary64.round (Decimal neg m (e0 + sign * Z.of_N (digits_value ds))), r')
        end in
      let after_e (r : list ascii) :=
        match r with
        | "+"%char :: r' => exp r' 1
        | "-"%char :: r' => exp r' (-1)
        | _ => exp r 1
        end in
      match l3 with
      | "e"%char :: r => after_e r
      | "E"%char :: r => after_e r
      | _ => Some (Binary64.round (Decimal neg m e0), l3)
      end
    end
  end.

(** A repeated key keeps its first place and takes the last value. *)
Fixpoint set_field (k : string) (v : JSValue) (fs : list (string * JSValue))
  : list (string * JSValue) :=
  match fs with
  | [] => [(k, v)]
  | (k', v') :: fs' =>
    if String.eqb k k' then (k', v) :: fs' else (k', v') :: set_field k v fs'
  end.

Fixpoint parse_value (fuel : nat) (l : list ascii) : option (JSValue * list ascii) :=
  match fuel with
  | O => None
  | S fuel' =>
    match skip_ws l with
    | "n"%char :: "u"%char :: "l"%char :: "l"%char :: r => Some (JSNull, r)
    | "t"%char :: "r"%char :: "u"%char :: "e"%char :: r => Some (JSBoolean true, r)
    | "f"%char :: "a"%char :: "l"%char :: "s"%char :: "e"%char :: r =>
      Some (JSBoolean false, r)
    | "["%char :: r =>
      match skip_ws r with
      | "]"%char :: r' => Some (JSArray [], r')
      | _ =>
        match parse_elements fuel' r [] with
        | Some (items, r') => Some (JSArray items, r')
        | None => None
        end
      end
    | "{"%char :: r =>
      match skip_ws r with
      | "}"%char :: r' => Some (JSObject [], r')
      | _ =>
        match parse_members fuel' r [] with
        | Some (fields, r') => Some (JSObject fields, r')
        | None => None
        end
      end
    | c :: r =>
      if Ascii.eqb c Str.dquote then
        match parse_chars r with
        | Some (s, r') => Some (JSString (Str.of_chars s), r')
        | None => None
        end
      else
        match parse_number (c :: r) with
        | Some (x, r') => Some (JSNumber x, r')
        | None => None
        end
    | [] => None
    end
  end
with parse_elements (fuel : nat) (l : list ascii) (acc : list JSValue)
  : option (list JSValue * list ascii) :=
  match fuel with
  | O => None
  | S fuel' =>
    match parse_value fuel' l with
    | None => None
    | Some (v, r) =>
      match skip_ws r with
      | ","%char :: r' => parse_elements fuel' r' (acc ++ [v])
      | "]"%char :: r' => Some (acc ++ [v], r')
      | _ => None
      end
    end
  end
with parse_members (fuel : nat) (l : list ascii) (acc : list (string * JSValue))
  : option (list (string * JSValue) * list ascii) :=
  match fuel with
  | O => None
  | S fuel' =>
    match skip_ws l with
    | c :: r =>
      if Ascii.eqb c Str.dquote then
        match parse_chars r with
        | None => None
        | Some (k, r1) =>
          match skip_ws r1 with
          | ":"%char :: r2 =>
            match parse_value fuel' r2 with
            | None => None
            | Some (v, r3) =>
              let acc' := set_field (Str.of_chars k) v acc in
              match skip_ws r3 with
              | ","%char :: r4 => parse_members fuel' r4 acc'
              | "}"%char :: r4 => Some (acc', r4)
              | _ => None
              end
            end
          | _ => None
          end
        end
      else None
    | [] => None
    end
  end.

End JSONParser.

(** [JSON.parse(text)]; [None] stands for the thrown [SyntaxError]. *)
Definition JSON_parse (text : string) : option JSValue :=
  let l := Str.chars text in
  match JSONParser.parse_value (2 * length l + 2) l with
  | Some (v, r) =>
    match JSONParser.skip_ws r with
    | [] => Some v
    | _ => None
    end
  | None => None
  end.

(** ** Percent-encoding

    The source never calls these; they state what a URL-encoded query
    value would be, byte by byte as [encodeURIComponent] and
    [decodeURIComponent] work on well-formed text. *)

Definition uriUnreserved (c : ascii) : bool :=
  let n := N_of_ascii c in
  ((48 <=? n) && (n <=? 57) || (65 <=? n) && (n <=? 90) || (97 <=? n) && (n <=? 122))%N
  || existsb (Ascii.eqb c) (Str.chars "-_.!~*'()").

Definition encodeURIComponent (s : string) : string :=
  Str.of_chars
    (flat_map (fun c =>
       if uriUnreserved c then [c]
       else let n := N_of_ascii c in
            ["%"%char; Str.hex_digit true (n / 16); Str.hex_digit true (n mod 16)])
       (Str.chars s)).

Fixpoint percent_decode (l : list ascii) : option (list ascii) :=
  match l with
  | [] => Some []
  | "%"%char :: a :: b :: l' =>
    match JSONParser.hex_value a, JSONParser.hex_value b, percent_decode l' with
    | Some x, Some y, Some r => Some (ascii_of_N (x * 16 + y) :: r)
    | _, _, _ => None
    end
  | "%"%char :: _ => None
  | c :: l' => option_map (cons c) (percent_decode l')
  end.

Definition decodeURIComponent (s : string) : option string :=
  option_map Str.of_chars (percent_decode (Str.chars s)).

(** ** The registry and the world a handler runs in *)

Module Rover.
(** [class Rover { id; ip }] with its two-argument constructor. *)
Record t : Type := new { id : string; ip : string }.
End Rover.

(** What the rover's HTTP endpoint does with one GET. *)
Inductive DeviceReply : Type :=
| NetworkFailure (message : string)
| HttpResponse (status : Z) (body : string).

Inductive Exception : Type :=
| Error (message : string)
| AxiosError (message : string)
| TypeError (message : string).

Record World : Type := {
  roverConnections : gmap string Rover.t;
  requests : list string
}.

Inductive Outcome (A : Type) : Type :=
| Return (a : A)
| Throw (e : Exception).
Arguments Return {A} a.
Arguments Throw {A} e.

Definition Async (A : Type) : Type := World -> Outcome A * World.

Definition ret {A} (a : A) : Async A := fun w => (Return a, w).
Definition throw {A} (e : Exception) : Async A := fun w => (Throw e, w).
Definition bind {A B} (m : Async A) (k : A -> Async B) : Async B :=
  fun w =>
    match m w with
    | (Return a, w') => k a w'
    | (Throw e, w') => (Throw e, w')
    end.

Declare Scope async_scope.
Delimit Scope async_scope with async.
Notation "x <- m ;; k" := (bind m (fun x => k))
  (at level 100, m at next level, right associativity) : async_scope.
Notation "m ;; k" := (bind m (fun _ => k))
  (at level 100, right associativity) : async_scope.

(** [roverConnections.size], [.get(key)] and [.set(key, value)]. *)
Definition Map_size : Async nat :=
  fun w => (Return (size (roverConnections w)), w).
Definition Map_get (key : string) : Async (option Rover.t) :=
  fun w => (Return (roverConnections w !! key), w).
Definition Map_set (key : string) (value : Rover.t) : Async unit :=
  fun w => (Return tt, {| roverConnections := <[key := value]> (roverConnections w);
                          requests := requests w |}).

(** ** [axios.get(url)] with the library's defaults

    The call is logged in [requests].  A transport failure rejects; so does
    a final status that the default [validateStatus] refuses, with the
    library's message.  Otherwise the promise resolves: the adapter has
    removed a byte-order mark that leads the body text, and the default
    [transformResponse] has replaced a body that parses as JSON by the
    parsed value and left any other body as the text it is.  The body of
    a reply is the text its bytes decode to. *)

(** [utils.stripBOM]: without one leading U+FEFF. *)
Definition stripBOM (content : string) : string :=
  match content with
  | String "239"%char (String "187"%char (String "191"%char rest)) => rest
  | _ => content
  end.

Record AxiosResponse : Type := { status : Z; data : JSValue }.

Definition validateStatus (status : Z) : bool :=
  (200 <=? status) && (status <? 300).

Definition transformResponse (body : string) : JSValue :=
  match JSON_parse body with
  | Some v => v
  | None => JSString body
  end.

(** The value a tool hands back: [{ content: [{ type, text }] }]. *)
Record TextContent : Type := { type : string; text : string }.
Record CallToolResult : Type := { content : list TextContent }.

Section Tools.

(** The rovers on the network: the reply to a GET of each URL. *)
Variable device : string -> DeviceReply.

Definition axios_get (url : string) : Async AxiosResponse :=
  fun w =>
    let w' := {| roverConnections := roverConnections w;
                 requests := requests w ++ [url] |} in
    match device url with
    | NetworkFailure message => (Throw (AxiosError message), w')
    | HttpResponse st body =>
      if validateStatus st
      then (Return {| status := st; data := transformResponse (stripBOM body) |}, w')
      else (Throw (AxiosError ("Request failed with status code " +:+ pretty st)), w')
    end.

(** ** The tools *)

(** A value written into a template literal: [`${v}`]. *)
Definition interpolate (v : JSValue) : Async string :=
  match ToString v with
  | Some text => ret text
  | None => throw (TypeError "Cannot convert object to primitive value")
  end.

Local Open Scope async_scope.

Definition Connect (ip : string) : Async CallToolResult :=
  size <- Map_size ;;
  let roverId := "rover" +:+ pretty (size + 1)%nat in
  let rover := Rover.new roverId ip in
  Map_set roverId rover ;;
  ret {| content := [{| type := "text";
                        text := "Connected to: " +:+ ip +:+ " with ID: " +:+ roverId |}] |}.

Definition Speed (id : string) (leftWheelSpeed rightWheelSpeed : Number)
  : Async CallToolResult :=
  rover <- Map_get id ;;
  match rover with
  | None => throw (Error ("Rover with ID " +:+ id +:+ " not found"))
  | Some rover =>
    let command := JSON_stringify
      (JSObject [("T", JSNumber (Number_of_Z 1));
                 ("L", JSNumber leftWheelSpeed);
                 ("R", JSNumber rightWheelSpeed)]) in
    let url := "http://" +:+ Rover.ip rover +:+ "/js?json=" +:+ command in
    axios_get url ;;
    ret {| content := [{| type := "text";
                          text := "Left wheel speed: " +:+ Number_toString leftWheelSpeed
                                  +:+ ", Right wheel speed: "
                                  +:+ Number_toString rightWheelSpeed |}] |}
  end.

Definition PWM (id : string) (L R : Number) : Async CallToolResult :=
  rover <- Map_get id ;;
  match rover with
  | None => throw (Error ("Rover with ID " +:+ id +:+ " not found"))
  | Some rover =>
    let command := JSON_stringify
      (JSObject [("T", JSNumber (Number_of_Z 11));
                 ("L", JSNumber L);
                 ("R", JSNumber R)]) in
    let url := "http://" +:+ Rover.ip rover +:+ "/js?json=" +:+ command in
    axios_get url ;;
    ret {| content := [{| type := "text";
                          text := "Left wheel speed: " +:+ Number_toString L
                                  +:+ ", Right wheel speed: " +:+ Number_toString R |}] |}
  end.

Definition cmd_vel (id : string) (L R : Number) : Async CallToolResult :=
  rover <- Map_get id ;;
  match rover with
  | None => throw (Error ("Rover with ID " +:+ id +:+ " not found"))
  | Some rover =>
    let command := JSON_stringify
      (JSObject [("T", JSNumber (Number_of_Z 13));
                 ("X", JSNumber L);
                 ("Z", JSNumber R)]) in
    let url := "http://" +:+ Rover.ip rover +:+ "/js?json=" +:+ command in
    axios_get url ;;
    ret {| content := [{| type := "text";
                          text := "Velocity: " +:+ Number_toString L
                                  +:+ ", Rotation: " +:+ Number_toString R |}] |}
  end.

Definition Screen (id : string) (lineNum : Number) (Text : string)
  : Async CallToolResult :=
  rover <- Map_get id ;;
  match rover with
  | None => throw (Error ("Rover with ID " +:+ id +:+ " not found"))
  | Some rover =>
    let command := JSON_stringify
      (JSObject [("T", JSNumber (Number_of_Z 3));
                 ("lineNum", JSNumber lineNum);
                 ("Text", JSString Text)]) in
    let url := "http://" +:+ Rover.ip rover +:+ "/js?json=" +:+ command in
    axios_get url ;;
    ret {| content := [{| type := "text";
                          text := "Line Number: " +:+ Number_toString lineNum
                                  +:+ ", Text: " +:+ Text |}] |}
  end.

Definition IMU (id : string) : Async CallToolResult :=
  rover <- Map_get id ;;
  match rover with
  | None => throw (Error ("Rover with ID " +:+ id +:+ " not found"))
  | Some rover =>
    let command := JSON_stringify (JSObject [("T", JSNumber (Number_of_Z 126))]) in
    let url := "http://" +:+ Rover.ip rover +:+ "/js?json=" +:+ command in
    result <- axios_get url ;;
    data <- interpolate (data result) ;;
    ret {| content := [{| type := "text"; text := "result" +:+ data |}] |}
  end.

End Tools.

(** A call of one of the five tools that address a rover, as the server
    dispatches it by name. *)
Inductive DeviceCall : Type :=
| CallSpeed (leftWheelSpeed rightWheelSpeed : Number)
| CallPWM (L R : Number)
| CallCmdVel (L R : Number)
| CallScreen (lineNum : Number) (Text : string)
| CallIMU.

Definition invoke (device : string -> DeviceReply) (id : string) (c : DeviceCall)
  : Async CallToolResult :=
  match c with
  | CallSpeed l r => Speed device id l r
  | CallPWM l r => PWM device id l r
  | CallCmdVel l r => cmd_vel device id l r
  | CallScreen n t => Screen device id n t
  | CallIMU => IMU device id
  end.

(** ** The two express routes *)

(** What [req.query.clientId] and [req.headers["client-id"]] can hold: the
    query parser yields a string, an array or a nested object, and either
    is [undefined] when absent. *)
Inductive ReqValue : Type :=
| QUndefined
| QString (s : string)
| QArray (items : list ReqValue)
| QObject (fields : list (string * ReqValue)).

(** [ToBoolean]: only [undefined] and the empty string are falsy here. *)
Definition truthy (v : ReqValue) : bool :=
  match v with
  | QUndefined => false
  | QString s => negb (String.eqb s "")
  | QArray _ => true
  | QObject _ => true
  end.

(** [a || b]. *)
Definition or_else (a b : ReqValue) : ReqValue := if truthy a then a else b.

Section Routes.

(** The response object of a request, which an SSE transport wraps. *)
Variable Response : Type.

Record Request : Type := {
  query_clientId : ReqValue;
  header_client_id : option string
}.

Record SSEServerTransport : Type := { endpoint : string; res : Response }.

Inductive RouteResult : Type :=
| Send (status : Z) (body : string)
| ServerConnect (transport : SSEServerTransport)
| HandlePostMessage (transport : SSEServerTransport).

Definition header_value (h : option string) : ReqValue :=
  match h with Some s => QString s | None => QUndefined end.

Definition clientId_of (req : Request) : ReqValue :=
  or_else (or_else (query_clientId req) (header_value (header_client_id req)))
          (QString "defaultClientId").

(** [transports] is a [Map] keyed by the client identifier.  A key that is
    an array or an object is a fresh reference at every request, so no
    later [get] finds it: only string keys are kept. *)
Definition transports_set (key : ReqValue) (t : SSEServerTransport)
           (transports : gmap string SSEServerTransport)
  : gmap string SSEServerTransport :=
  match key with
  | QString s => <[s := t]> transports
  | _ => transports
  end.

Definition transports_get (key : ReqValue)
           (transports : gmap string SSEServerTransport)
  : option SSEServerTransport :=
  match key with
  | QString s => transports !! s
  | _ => None
  end.

Definition get_sse (req : Request) (res : Response)
           (transports : gmap string SSEServerTransport)
  : RouteResult * gmap string SSEServerTransport :=
  let clientId := clientId_of req in
  if negb (truthy clientId) then
    (Send 400 "clientId query parameter is required", transports)
  else
    let transport := {| endpoint := "/messages"; res := res |} in
    (ServerConnect transport, transports_set clientId transport transports).

Definition post_messages (req : Request)
           (transports : gmap string SSEServerTransport)
  : RouteResult * gmap string SSEServerTransport :=
  let clientId := clientId_of req in
  if negb (truthy clientId) then
    (Send 400 "clientId query parameter is required", transports)
  else
    match transports_get clientId transports with
    | None => (Send 404 "Transport not found for clientId", transports)
    | Some transport => (HandlePostMessage transport, transports)
    end.

End Routes.

Arguments Send {Response} status body.
Arguments ServerConnect {Response} transport.
Arguments HandlePostMessage {Response} transport.
Arguments transports_get {Response} key transports.
Arguments transports_set {Response} key t transports.
Arguments get_sse {Response} req res transports.
Arguments post_messages {Response} req transports.

(** ** Vocabulary of the properties *)

(** The command object of each tool, as the table of tools gives it. *)
Definition command_object (c : DeviceCall) : JSValue :=
  match c with
  | CallSpeed leftWheelSpeed rightWheelSpeed =>
    JSObject [("T", JSNumber (Number_of_Z 1));
              ("L", JSNumber leftWheelSpeed); ("R", JSNumber rightWheelSpeed)]
  | CallPWM L R =>
    JSObject [("T", JSNumber (Number_of_Z 11)); ("L", JSNumber L); ("R", JSNumber R)]
  | CallCmdVel L R =>
    JSObject [("T", JSNumber (Number_of_Z 13)); ("X", JSNumber L); ("Z", JSNumber R)]
  | CallScreen lineNum Text =>
    JSObject [("T", JSNumber (Number_of_Z 3));
              ("lineNum", JSNumber lineNum); ("Text", JSString Text)]
  | CallIMU => JSObject [("T", JSNumber (Number_of_Z 126))]
  end.

(** The URL with the JSON text of the command as it is. *)
Definition raw_url (address : string) (c : DeviceCall) : string :=
  "http://" +:+ address +:+ "/js?json=" +:+ JSON_stringify (command_object c).

(** The URL with the JSON text of the command percent-encoded. *)
Definition urlencoded_url (address : string) (c : DeviceCall) : string :=
  "http://" +:+ address +:+ "/js?json="
  +:+ encodeURIComponent (JSON_stringify (command_object c)).

(** What the receiving end reads back from a URL: the value of the query
    parameter, that is the text after the first [?json=] up to the next
    [&] or [#], percent-decoded and parsed. *)
Fixpoint parameter_value (l : list ascii) : list ascii :=
  match l with
  | [] => []
  | c :: l' =>
    if Ascii.eqb c "&"%char || Ascii.eqb c "#"%char then [] else c :: parameter_value l'
  end.

Definition decoded_JSON (url : string) : option JSValue :=
  match index 0 "?json=" url with
  | Some n =>
    let rest := substring (n + 6) (String.length url - (n + 6)) url in
    match decodeURIComponent (Str.of_chars (parameter_value (Str.chars rest))) with
    | Some text => JSON_parse text
    | None => None
    end
  | None => None
  end.

Definition not_found (id : string) : Exception :=
  Error ("Rover with ID " +:+ id +:+ " not found").

Definition rover_name (n : nat) : string := "rover" +:+ pretty n.

Definition empty_world : World := {| roverConnections := ∅; requests := [] |}.

(** The world in which one rover was registered at [address]. *)
Definition one_rover (address : string) : World :=
  {| roverConnections := {[ "rover1" := Rover.new "rover1" address ]}; requests := [] |}.

(** How a device tool ends once its request went through: Speed, PWM,
    cmd_vel and Screen return their confirmation; IMU writes the response
    data into its result text, which throws when the data has no string
    form. *)
Definition completion (c : DeviceCall) (data : JSValue) : Outcome CallToolResult :=
  let confirmation (text : string) : Outcome CallToolResult :=
    Return {| content := [{| type := "text"; text := text |}] |} in
  match c with
  | CallSpeed leftWheelSpeed rightWheelSpeed =>
    confirmation ("Left wheel speed: " +:+ Number_toString leftWheelSpeed
                  +:+ ", Right wheel speed: " +:+ Number_toString rightWheelSpeed)
  | CallPWM L R =>
    confirmation ("Left wheel speed: " +:+ Number_toString L
                  +:+ ", Right wheel speed: " +:+ Number_toString R)
  | CallCmdVel L R =>
    confirmation ("Velocity: " +:+ Number_toString L
                  +:+ ", Rotation: " +:+ Number_toString R)
  | CallScreen lineNum Text =>
    confirmation ("Line Number: " +:+ Number_toString lineNum +:+ ", Text: " +:+ Text)
  | CallIMU =>
    match ToString data with
    | Some text => confirmation ("result" +:+ text)
    | None => Throw (TypeError "Cannot convert object to primitive value")
    end
  end.

(** What Connect returns when it registered [ip] under [roverId]. *)
Definition connected (ip roverId : string) : CallToolResult :=
  {| content := [{| type := "text";
                    text := "Connected to: " +:+ ip +:+ " with ID: " +:+ roverId |}] |}.

(** The table after one more registration. *)
Definition registered (ip : string) (m : gmap string Rover.t) : gmap string Rover.t :=
  <[rover_name (size m + 1) := Rover.new (rover_name (size m + 1)) ip]> m.

(** Connect called once per address, in order. *)
Fixpoint connect_all (ips : list string) : Async (list CallToolResult) :=
  match ips with
  | [] => ret []
  | ip :: rest =>
    bind (Connect ip) (fun r => bind (connect_all rest) (fun rs => ret (r :: rs)))
  end.

(** A table is numbered when its keys are exactly [rover1] to [roverN], [N]
    its size. *)
Definition numbered (m : gmap string Rover.t) : Prop :=
  forall key, is_Some (m !! key) <-> exists k, (1 <= k <= size m)%nat /\ key = rover_name k.

(** The byte-order mark U+FEFF, as UTF-8. *)
Definition BOM : string :=
  String "239"%char (String "187"%char (String "191"%char "")).

(** A rover endpoint that answers every GET with the given status and
    body. *)
Definition answering (status : Z) (body : string) : string -> DeviceReply :=
  fun _ => HttpResponse status body.

(** ** The server as a whole *)

(** One tool call as the server receives it. *)
Inductive ToolCall : Type :=
| CallConnect (ip : string)
| CallDevice (id : string) (c : DeviceCall).

Definition call_tool (device : string -> DeviceReply) (t : ToolCall)
  : Async CallToolResult :=
  match t with
  | CallConnect ip => Connect ip
  | CallDevice id c => invoke device id c
  end.

(** Calls handled one after the other on the shared world; a call that
    throws fails alone and the next one runs on the world it left. *)
Fixpoint serve (device : string -> DeviceReply) (calls : list ToolCall) (w : World)
  : list (Outcome CallToolResult) * World :=
  match calls with
  | [] => ([], w)
  | t :: rest =>
    let '(o, w1) := call_tool device t w in
    let '(os, w2) := serve device rest w1 in
    (o :: os, w2)
  end.

(** How many of the calls are Connect calls, and how many address a
    rover. *)
Fixpoint connects (calls : list ToolCall) : nat :=
  match calls with
  | [] => O
  | CallConnect _ :: rest => S (connects rest)
  | CallDevice _ _ :: rest => connects rest
  end.

Fixpoint device_calls (calls : list ToolCall) : nat :=
  match calls with
  | [] => O
  | CallConnect _ :: rest => device_calls rest
  | CallDevice _ _ :: rest => S (device_calls rest)
  end.

(** How many of the outcomes are a thrown [Error], the one the handlers
    themselves throw. *)
Fixpoint thrown_errors (outcomes : list (Outcome CallToolResult)) : nat :=
  match outcomes with
  | [] => O
  | Throw (Error _) :: rest => S (thrown_errors rest)
  | _ :: rest => thrown_errors rest
  end.

(** Every rover is stored under its own identifier. *)
Definition keyed (m : gmap string Rover.t) : Prop :=
  forall key rover, m !! key = Some rover -> Rover.id rover = key.

(** ** The listening port: [process.argv[2] ? parseInt(process.argv[2]) : 3000] *)

Module ParseInt.

(** [StrWhiteSpaceChar] on UTF-8 bytes: the ASCII blanks and line ends, and
    the byte sequences of U+00A0, U+1680, U+2000 to U+200A, U+2028, U+2029,
    U+202F, U+205F, U+3000 and U+FEFF. *)
Definition blank1 (a : N) : bool :=
  ((9 <=? a) && (a <=? 13) || (a =? 32))%N.

Definition blank2 (a b : N) : bool := ((a =? 194) && (b =? 160))%N.

Definition blank3 (a b c : N) : bool :=
  ((a =? 225) && (b =? 154) && (c =? 128)
   || (a =? 226) && (b =? 128)
      && ((128 <=? c) && (c <=? 138) || (c =? 168) || (c =? 169) || (c =? 175))
   || (a =? 226) && (b =? 129) && (c =? 159)
   || (a =? 227) && (b =? 128) && (c =? 128)
   || (a =? 239) && (b =? 187) && (c =? 191))%N.

Fixpoint trim_start (l : list ascii) : list ascii :=
  match l with
  | [] => []
  | c1 :: l1 =>
    let a := N_of_ascii c1 in
    if (a <? 128)%N then (if blank1 a then trim_start l1 else l)
    else
      match l1 with
      | [] => l
      | c2 :: l2 =>
        if blank2 a (N_of_ascii c2) then trim_start l2
        else
          match l2 with
          | [] => l
          | c3 :: l3 =>
            if blank3 a (N_of_ascii c2) (N_of_ascii c3) then trim_start l3 else l
          end
      end
  end.

(** The value of a character as a digit, whatever the radix. *)
Definition digit_value (c : ascii) : option N :=
  let a := N_of_ascii c in
  if (48 <=? a)%N && (a <=? 57)%N then Some (a - 48)%N
  else if (97 <=? a)%N && (a <=? 122)%N then Some (a - 87)%N
  else if (65 <=? a)%N && (a <=? 90)%N then Some (a - 55)%N
  else None.

(** The digits of the longest prefix written in radix [R]. *)
Fixpoint digits (R : N) (l : list ascii) : list N :=
  match l with
  | [] => []
  | c :: l' =>
    match digit_value c with
    | Some d => if (d <? R)%N then d :: digits R l' else []
    | None => []
    end
  end.

Definition value (R : N) (ds : list N) : N :=
  fold_left (fun acc d => (acc * R + d)%N) ds 0%N.

(** The steps of [parseInt] without a radix, on the characters of the
    text: blanks, sign, [0x] prefix, digits. *)
Definition parse (l : list ascii) : option Number :=
  let trimmed := trim_start l in
  let '(negative, unsigned) :=
    match trimmed with
    | "-"%char :: r => (true, r)
    | "+"%char :: r => (false, r)
    | _ => (false, trimmed)
    end in
  let '(R, numeral) :=
    match unsigned with
    | "0"%char :: "x"%char :: r => (16%N, r)
    | "0"%char :: "X"%char :: r => (16%N, r)
    | _ => (10%N, unsigned)
    end in
  match digits R numeral with
  | [] => None
  | ds => Some (Binary64.round (Decimal negative (value R ds) 0))
  end.

End ParseInt.

(** [parseInt(text)]; [None] stands for [NaN].  The result is the
    binary64 number nearest to the integer read. *)
Definition parseInt (text : string) : option Number :=
  ParseInt.parse (Str.chars text).

(** The port handed to [app.listen], from the arguments of the process. *)
Definition port (argv : list string) : option Number :=
  match argv !! 2%nat with
  | Some arg => if String.eqb arg "" then Some (Number_of_Z 3000) else parseInt arg
  | None => Some (Number_of_Z 3000)
  end.

(** A request that names no client: neither its query parameter nor its
    header holds a truthy value. *)
Definition anonymous (req : Request) : bool :=
  negb (truthy (query_clientId req))
  && negb (truthy (header_value (header_client_id req))).

(** ** Properties of the device tools *)

Section ToolFacts.

Variable device : string -> DeviceReply.

Lemma axios_get_world url w :
  snd (axios_get device url w)
  = {| roverConnections := roverConnections w; requests := requests w ++ [url] |}.
Proof.
  unfold axios_get. destruct (device url) as [m | st body]; [reflexivity |].
  destruct (validateStatus st); reflexivity.
Qed.

(** Every device tool starts by the lookup and stops there when it finds
    nothing. *)
Lemma invoke_unregistered id c w :
  roverConnections w !! id = None ->
  invoke device id c w = (Throw (not_found id), w).
Proof.
  intros Hnone.
  destruct c; unfold invoke, Speed, PWM, cmd_vel, Screen, IMU, bind, Map_get;
    rewrite Hnone; reflexivity.
Qed.

(** With a registration, the world after the call is the world before it
    with the one URL appended to the log. *)
Lemma invoke_registered_world id c w rover :
  roverConnections w !! id = Some rover ->
  snd (invoke device id c w)
  = {| roverConnections := roverConnections w;
       requests := requests w ++ [raw_url (Rover.ip rover) c] |}.
Proof.
  intros Hsome.
  destruct c; unfold invoke, Speed, PWM, cmd_vel, Screen, IMU, bind, Map_get;
    rewrite Hsome;
    match goal with
    | |- context [axios_get device ?u w] =>
      pose proof (axios_get_world u w) as Hw;
      destruct (axios_get device u w) as [[resp | e] w']; simpl in Hw; subst w';
      try reflexivity;
      unfold interpolate; destruct (ToString (data resp)); reflexivity
    end.
Qed.

(** With a registration, the outcome is decided by the reply to the one
    GET. *)
Lemma invoke_registered_outcome id c w rover :
  roverConnections w !! id = Some rover ->
  fst (invoke device id c w)
  = match device (raw_url (Rover.ip rover) c) with
    | NetworkFailure message => Throw (AxiosError message)
    | HttpResponse st body =>
      if validateStatus st
      then completion c (transformResponse (stripBOM body))
      else Throw (AxiosError ("Request failed with status code " +:+ pretty st))
    end.
Proof.
  intros Hsome.
  destruct c; unfold invoke, Speed, PWM, cmd_vel, Screen, IMU, bind, Map_get;
    rewrite Hsome; unfold axios_get, raw_url, command_object; cbv zeta;
    match goal with
    | |- context [device ?u] => destruct (device u) as [m | st body]
    end;
    try reflexivity;
    destruct (validateStatus st); try reflexivity.
  unfold interpolate, completion. cbn [data].
  destruct (ToString (transformResponse (stripBOM body))); reflexivity.
Qed.

End ToolFacts.

(** ** Properties of Connect *)

Lemma rover_name_inj n k : rover_name n = rover_name k -> n = k.
Proof.
  unfold rover_name. intros H. simpl in H. injection H as H.
  exact (pretty_nat_inj _ _ H).
Qed.

Lemma Connect_unfold ip w :
  Connect ip w
  = (Return (connected ip (rover_name (size (roverConnections w) + 1))),
     {| roverConnections := registered ip (roverConnections w);
        requests := requests w |}).
Proof. reflexivity. Qed.

Lemma numbered_empty : numbered ∅.
Proof.
  intros key. rewrite lookup_empty, map_size_empty. split.
  - intros [x Hx]. discriminate.
  - intros (k & Hk & _). lia.
Qed.

Lemma numbered_fresh m : numbered m -> m !! rover_name (size m + 1) = None.
Proof.
  intros Hm. destruct (m !! rover_name (size m + 1)) as [r|] eqn:E; [|reflexivity].
  destruct (proj1 (Hm _) (mk_is_Some _ _ E)) as (k & Hk & Heq).
  apply rover_name_inj in Heq. lia.
Qed.

Lemma registered_size ip m : numbered m -> size (registered ip m) = S (size m).
Proof. intros Hm. unfold registered. apply map_size_insert_None, numbered_fresh, Hm. Qed.

Lemma registered_numbered ip m : numbered m -> numbered (registered ip m).
Proof.
  intros Hm key. rewrite (registered_size ip m Hm). unfold registered.
  destruct (decide (rover_name (size m + 1) = key)) as [<- | Hne].
  - rewrite lookup_insert_eq. split; [intros _ | eauto].
    exists (size m + 1)%nat. split; [lia | reflexivity].
  - rewrite lookup_insert_ne by exact Hne. rewrite (Hm key). split.
    + intros (k & Hk & ->). exists k. split; [lia | reflexivity].
    + intros (k & Hk & ->). exists k. split; [|reflexivity].
      assert (k <> (size m + 1)%nat) by (intros ->; apply Hne; reflexivity). lia.
Qed.

(** Connect over a numbered table: the results name the next identifiers
    in order, and each address is stored under the identifier returned for
    it; the entries that were there stay. *)
Lemma connect_all_numbered ips : forall w,
  numbered (roverConnections w) ->
  exists w',
    connect_all ips w
    = (Return (imap (fun i ip => connected ip (rover_name (size (roverConnections w) + 1 + i)))
                    ips), w')
    /\ requests w' = requests w
    /\ numbered (roverConnections w')
    /\ size (roverConnections w') = (size (roverConnections w) + length ips)%nat
    /\ (forall i ip, ips !! i = Some ip ->
          roverConnections w' !! rover_name (size (roverConnections w) + 1 + i)
          = Some (Rover.new (rover_name (size (roverConnections w) + 1 + i)) ip))
    /\ (forall k, (k <= size (roverConnections w))%nat ->
          roverConnections w' !! rover_name k = roverConnections w !! rover_name k).
Proof.
  induction ips as [|ip rest IH]; intros w Hw.
  - exists w. cbn [connect_all imap length]. split_and!; auto.
    intros i ip Hi. rewrite lookup_nil in Hi. discriminate.
  - set (w1 := {| roverConnections := registered ip (roverConnections w);
                  requests := requests w |}).
    assert (Hw1 : numbered (roverConnections w1)) by (apply registered_numbered, Hw).
    assert (Hs1 : size (roverConnections w1) = S (size (roverConnections w)))
      by (apply registered_size, Hw).
    destruct (IH w1 Hw1) as (w' & Hrun & Hreq & Hnum & Hsize & Hnew & Hold).
    exists w'. cbn [connect_all]. unfold bind at 1. rewrite Connect_unfold.
    fold w1. unfold bind at 1. rewrite Hrun. unfold ret.
    rewrite Hs1 in *. split_and!.
    + cbn [imap]. do 3 f_equal.
      * do 2 f_equal. lia.
      * apply imap_ext. intros i x _. unfold compose. do 2 f_equal. lia.
    + exact Hreq.
    + exact Hnum.
    + cbn [length]. lia.
    + intros [|i] x Hi.
      * cbn in Hi. injection Hi as ->.
        replace (size (roverConnections w) + 1 + 0)%nat
          with (size (roverConnections w) + 1)%nat by lia.
        rewrite Hold by lia. unfold w1; cbn [roverConnections]. unfold registered.
        apply lookup_insert_eq.
      * cbn in Hi. specialize (Hnew i x Hi).
        replace (size (roverConnections w) + 1 + S i)%nat
          with (S (size (roverConnections w)) + 1 + i)%nat by lia.
        exact Hnew.
    + intros k Hk. rewrite Hold by lia. unfold w1; cbn [roverConnections].
      unfold registered. apply lookup_insert_ne.
      intros Heq. apply rover_name_inj in Heq. lia.
Qed.

(** ** The claims about the device tools *)

(** C1 (as amended): for each of Speed, PWM, cmd_vel, Screen and IMU called
    with a registered identifier, exactly one URL is handed to the HTTP
    client, and it is [http://{address}/js?json=] followed by the JSON text
    of the command object as [JSON.stringify] wrote it; the handler applies
    no percent-encoding. *)
Theorem C1_request_url_is_raw_json
  (device : string -> DeviceReply) (w : World) (id : string) (rover : Rover.t)
  (c : DeviceCall) :
  roverConnections w !! id = Some rover ->
  requests (snd (invoke device id c w)) = requests w ++ [raw_url (Rover.ip rover) c].
Proof.
  intros Hsome. rewrite (invoke_registered_world device id c w rover Hsome).
  reflexivity.
Qed.

Lemma C1_request_url_is_raw_json_witness :
  roverConnections (one_rover "10.0.0.5") !! "rover1"
  = Some (Rover.new "rover1" "10.0.0.5")
  /\ requests (snd (invoke (answering 200 "") "rover1"
                           (CallScreen (Number_of_Z 2) "a&b") (one_rover "10.0.0.5")))
     = [] ++ [raw_url "10.0.0.5" (CallScreen (Number_of_Z 2) "a&b")].
Proof.
  split; [reflexivity |].
  apply (C1_request_url_is_raw_json (answering 200 "") (one_rover "10.0.0.5") "rover1"
           (Rover.new "rover1" "10.0.0.5")).
  reflexivity.
Defined.

(** C1 as stated fails: Screen with the text [a&b] on the rover at 10.0.0.5
    requests the URL that ends in the JSON text itself, which is not the
    URL with that text percent-encoded; read back at the receiving end, the
    percent-encoded URL would give the command and the requested one gives
    nothing, its parameter ending at the [&]. *)
Lemma C1_urlencoded_counterexample :
  let w := one_rover "10.0.0.5" in
  let c := CallScreen (Number_of_Z 2) "a&b" in
  roverConnections w !! "rover1" = Some (Rover.new "rover1" "10.0.0.5")
  /\ requests (snd (invoke (answering 200 "") "rover1" c w))
     = [Str.dq "http://10.0.0.5/js?json={'T':3,'lineNum':2,'Text':'a&b'}"]
  /\ urlencoded_url "10.0.0.5" c
     = "http://10.0.0.5/js?json=%7B%22T%22%3A3%2C%22lineNum%22%3A2%2C%22Text%22%3A%22a%26b%22%7D"
  /\ requests (snd (invoke (answering 200 "") "rover1" c w))
     <> requests w ++ [urlencoded_url "10.0.0.5" c]
  /\ decoded_JSON (urlencoded_url "10.0.0.5" c) = Some (command_object c)
  /\ decoded_JSON (raw_url "10.0.0.5" c) = None.
Proof.
  cbv zeta. split_and!; [reflexivity | reflexivity | reflexivity | | reflexivity | reflexivity].
  vm_compute. discriminate.
Qed.

(** C2 (as amended): for a registered identifier, when the GET succeeds with
    a body that, once the HTTP client has removed a byte-order mark leading
    it, is not JSON text, the result text of IMU is the literal [result]
    immediately followed by that body text. *)
Theorem C2_IMU_prefixes_the_body
  (device : string -> DeviceReply) (w : World) (id : string) (rover : Rover.t)
  (st : Z) (body : string) :
  roverConnections w !! id = Some rover ->
  device (raw_url (Rover.ip rover) CallIMU) = HttpResponse st body ->
  validateStatus st = true ->
  JSON_parse (stripBOM body) = None ->
  fst (IMU device id w)
  = Return {| content := [{| type := "text"; text := "result" +:+ stripBOM body |}] |}.
Proof.
  intros Hsome Hreply Hok Hparse.
  change (IMU device id w) with (invoke device id CallIMU w).
  rewrite (invoke_registered_outcome device id CallIMU w rover Hsome), Hreply, Hok.
  unfold completion, transformResponse. rewrite Hparse. reflexivity.
Qed.

Lemma C2_IMU_prefixes_the_body_witness :
  fst (IMU (answering 200 (BOM +:+ "roll=1")) "rover1" (one_rover "10.0.0.5"))
  = Return {| content := [{| type := "text"; text := "resultroll=1" |}] |}.
Proof.
  apply (C2_IMU_prefixes_the_body (answering 200 (BOM +:+ "roll=1")) (one_rover "10.0.0.5")
           "rover1" (Rover.new "rover1" "10.0.0.5") 200 (BOM +:+ "roll=1"));
    reflexivity.
Defined.

(** C2 as stated fails: when the rover answers [roll=1], the result text of
    IMU is [resultroll=1], which is not the body. *)
Lemma C2_verbatim_counterexample :
  let w := one_rover "10.0.0.5" in
  let device := answering 200 "roll=1" in
  roverConnections w !! "rover1" = Some (Rover.new "rover1" "10.0.0.5")
  /\ device (raw_url "10.0.0.5" CallIMU) = HttpResponse 200 "roll=1"
  /\ fst (IMU device "rover1" w)
     = Return {| content := [{| type := "text"; text := "resultroll=1" |}] |}
  /\ fst (IMU device "rover1" w)
     <> Return {| content := [{| type := "text"; text := "roll=1" |}] |}.
Proof.
  cbv zeta. split_and!; [reflexivity | reflexivity | reflexivity |].
  vm_compute. discriminate.
Qed.

(** When the body is JSON text, the response data is the parsed value, and
    the template literal writes an object as [[object Object]]. *)
Example IMU_json_body :
  fst (IMU (answering 200 (Str.dq "{'roll':1}")) "rover1" (one_rover "10.0.0.5"))
  = Return {| content := [{| type := "text"; text := "result[object Object]" |}] |}.
Proof. reflexivity. Qed.

(** C4: each of Speed, PWM, cmd_vel, Screen and IMU, called with an
    identifier that has no entry in the registry, throws the error
    [Rover with ID {id} not found], and leaves the world as it was: no URL
    was requested and the registry is the same. *)
Theorem C4_unregistered_identifier_fails
  (device : string -> DeviceReply) (w : World) (id : string) (c : DeviceCall) :
  roverConnections w !! id = None ->
  fst (invoke device id c w) = Throw (Error ("Rover with ID " +:+ id +:+ " not found"))
  /\ requests (snd (invoke device id c w)) = requests w
  /\ snd (invoke device id c w) = w.
Proof.
  intros Hnone. rewrite (invoke_unregistered device id c w Hnone).
  split_and!; reflexivity.
Qed.

Lemma C4_unregistered_identifier_fails_witness :
  roverConnections (one_rover "10.0.0.5") !! "rover7" = None
  /\ fst (invoke (answering 200 "") "rover7" CallIMU (one_rover "10.0.0.5"))
     = Throw (Error "Rover with ID rover7 not found")
  /\ requests (snd (invoke (answering 200 "") "rover7" CallIMU (one_rover "10.0.0.5")))
     = [].
Proof.
  split; [reflexivity |].
  destruct (C4_unregistered_identifier_fails (answering 200 "") (one_rover "10.0.0.5")
              "rover7" CallIMU eq_refl) as (Hthrow & Hrequests & _).
  split; [exact Hthrow | exact Hrequests].
Defined.

Lemma append_assoc (a b c : string) : (a +:+ b) +:+ c = a +:+ (b +:+ c).
Proof.
  induction a as [|x a IH]; [reflexivity |].
  change (String x ((a +:+ b) +:+ c) = String x (a +:+ (b +:+ c))).
  rewrite IH. reflexivity.
Qed.

(** The JSON text of an object of three fields, the first a fixed number
    and the other two numbers passed by the caller. *)
Lemma stringify_three_numbers (k1 k2 k3 : string) (t : Z) (x y : Number) :
  JSON_stringify (JSObject [(k1, JSNumber (Number_of_Z t)); (k2, JSNumber x); (k3, JSNumber y)])
  = "{" +:+ QuoteJSONString k1 +:+ ":" +:+ Number_toString (Number_of_Z t) +:+ ","
    +:+ QuoteJSONString k2 +:+ ":" +:+ JSON_number x +:+ ","
    +:+ QuoteJSONString k3 +:+ ":" +:+ JSON_number y +:+ "}".
Proof.
  cbn [JSON_stringify map String.concat fst snd].
  change (JSON_number (Number_of_Z t)) with (Number_toString (Number_of_Z t)).
  rewrite !append_assoc. reflexivity.
Qed.

(** C6: with a registered identifier, Speed hands the HTTP client exactly
    one URL, whose query is the JSON text of the object with [T] 1, [L] the
    left speed and [R] the right speed, in that order, each number written
    as JSON writes it; for the rover at [10.0.0.5] and the speeds 50 and
    -50 the URL ends in the text of [{"T":1,"L":50,"R":-50}], and decoding
    it gives back that object. *)
Theorem C6_speed_command
  (device : string -> DeviceReply) (w : World) (id : string) (rover : Rover.t)
  (leftWheelSpeed rightWheelSpeed : Number) :
  roverConnections w !! id = Some rover ->
  let speed := JSObject [("T", JSNumber (Number_of_Z 1));
                         ("L", JSNumber leftWheelSpeed);
                         ("R", JSNumber rightWheelSpeed)] in
  requests (snd (Speed device id leftWheelSpeed rightWheelSpeed w))
  = requests w ++ ["http://" +:+ Rover.ip rover +:+ "/js?json=" +:+ JSON_stringify speed]
  /\ JSON_stringify speed
     = Str.dq "{'T':1,'L':" +:+ JSON_number leftWheelSpeed
       +:+ Str.dq ",'R':" +:+ JSON_number rightWheelSpeed +:+ "}"
  /\ (Rover.ip rover = "10.0.0.5" ->
      requests (snd (Speed device id (Number_of_Z 50) (Number_of_Z (-50)) w))
      = requests w ++ [Str.dq "http://10.0.0.5/js?json={'T':1,'L':50,'R':-50}"])
  /\ decoded_JSON (Str.dq "http://10.0.0.5/js?json={'T':1,'L':50,'R':-50}")
     = Some (JSObject [("T", JSNumber (Number_of_Z 1));
                       ("L", JSNumber (Number_of_Z 50));
                       ("R", JSNumber (Number_of_Z (-50)))]).
Proof.
  intros Hsome speed. split_and!.
  - change (Speed device id leftWheelSpeed rightWheelSpeed w)
      with (invoke device id (CallSpeed leftWheelSpeed rightWheelSpeed) w).
    rewrite (invoke_registered_world device id _ w rover Hsome). reflexivity.
  - unfold speed. rewrite stringify_three_numbers. reflexivity.
  - intros Hip.
    change (Speed device id (Number_of_Z 50) (Number_of_Z (-50)) w)
      with (invoke device id (CallSpeed (Number_of_Z 50) (Number_of_Z (-50))) w).
    rewrite (invoke_registered_world device id _ w rover Hsome).
    cbn [snd requests]. unfold raw_url. rewrite Hip. reflexivity.
  - vm_compute. reflexivity.
Qed.

Lemma C6_speed_command_witness :
  roverConnections (one_rover "10.0.0.5") !! "rover1"
  = Some (Rover.new "rover1" "10.0.0.5")
  /\ requests (snd (Speed (answering 200 "") "rover1" (Number_of_Z 50) (Number_of_Z (-50))
                          (one_rover "10.0.0.5")))
     = [Str.dq "http://10.0.0.5/js?json={'T':1,'L':50,'R':-50}"].
Proof.
  split; [reflexivity |].
  destruct (C6_speed_command (answering 200 "") (one_rover "10.0.0.5") "rover1"
              (Rover.new "rover1" "10.0.0.5") (Number_of_Z 50) (Number_of_Z (-50))
              eq_refl) as (_ & _ & Hexample & _).
  exact (Hexample eq_refl).
Defined.

(** C7: with a registered identifier, cmd_vel with arguments [L] and [R]
    hands the HTTP client exactly one URL, whose query is the JSON text of
    the object with [T] 13, [X] the argument [L] and [Z] the argument [R];
    for 0.5 and -0.2 that text is [{"T":13,"X":0.5,"Z":-0.2}] and decoding
    the URL gives back that object. *)
Theorem C7_cmd_vel_command
  (device : string -> DeviceReply) (w : World) (id : string) (rover : Rover.t)
  (L R : Number) :
  roverConnections w !! id = Some rover ->
  let velocity := JSObject [("T", JSNumber (Number_of_Z 13));
                            ("X", JSNumber L); ("Z", JSNumber R)] in
  requests (snd (cmd_vel device id L R w))
  = requests w ++ ["http://" +:+ Rover.ip rover +:+ "/js?json=" +:+ JSON_stringify velocity]
  /\ JSON_stringify velocity
     = Str.dq "{'T':13,'X':" +:+ JSON_number L +:+ Str.dq ",'Z':" +:+ JSON_number R +:+ "}"
  /\ JSON_stringify (JSObject [("T", JSNumber (Number_of_Z 13));
                               ("X", JSNumber (Decimal false 5 (-1)));
                               ("Z", JSNumber (Decimal true 2 (-1)))])
     = Str.dq "{'T':13,'X':0.5,'Z':-0.2}"
  /\ decoded_JSON ("http://" +:+ "10.0.0.5" +:+ "/js?json=" +:+ Str.dq "{'T':13,'X':0.5,'Z':-0.2}")
     = Some (JSObject [("T", JSNumber (Number_of_Z 13));
                       ("X", JSNumber (Decimal false 5 (-1)));
                       ("Z", JSNumber (Decimal true 2 (-1)))]).
Proof.
  intros Hsome velocity. split_and!.
  - change (cmd_vel device id L R w) with (invoke device id (CallCmdVel L R) w).
    rewrite (invoke_registered_world device id _ w rover Hsome). reflexivity.
  - unfold velocity. rewrite stringify_three_numbers. reflexivity.
  - vm_compute. reflexivity.
  - vm_compute. reflexivity.
Qed.

Lemma C7_cmd_vel_command_witness :
  roverConnections (one_rover "10.0.0.5") !! "rover1"
  = Some (Rover.new "rover1" "10.0.0.5")
  /\ requests (snd (cmd_vel (answering 200 "") "rover1" (Decimal false 5 (-1))
                            (Decimal true 2 (-1)) (one_rover "10.0.0.5")))
     = [Str.dq "http://10.0.0.5/js?json={'T':13,'X':0.5,'Z':-0.2}"].
Proof.
  split; [reflexivity |].
  destruct (C7_cmd_vel_command (answering 200 "") (one_rover "10.0.0.5") "rover1"
              (Rover.new "rover1" "10.0.0.5") (Decimal false 5 (-1)) (Decimal true 2 (-1))
              eq_refl) as (Hrequest & _).
  rewrite Hrequest. reflexivity.
Defined.

(** C8: a call of Speed, PWM, cmd_vel, Screen or IMU leaves the registry
    exactly as it was, whether it returns, fails on the lookup or fails on
    the request, while Connect writes its new entry; so a Connect made
    after a device call returns the same identifier and builds the same
    table as without it, and a device call made after another returns what
    it would have returned without it. *)
Theorem C8_device_tools_leave_the_registry
  (device : string -> DeviceReply) (w : World) (id : string) (c : DeviceCall) :
  roverConnections (snd (invoke device id c w)) = roverConnections w
  /\ (forall ip,
        roverConnections (snd (Connect ip w)) !! rover_name (size (roverConnections w) + 1)
        = Some (Rover.new (rover_name (size (roverConnections w) + 1)) ip))
  /\ (forall ip,
        fst (Connect ip (snd (invoke device id c w))) = fst (Connect ip w)
        /\ roverConnections (snd (Connect ip (snd (invoke device id c w))))
           = roverConnections (snd (Connect ip w)))
  /\ (forall id' c',
        fst (invoke device id' c' (snd (invoke device id c w)))
        = fst (invoke device id' c' w)).
Proof.
  assert (Hframe : roverConnections (snd (invoke device id c w)) = roverConnections w).
  { destruct (roverConnections w !! id) as [rover|] eqn:E.
    - rewrite (invoke_registered_world device id c w rover E). reflexivity.
    - rewrite (invoke_unregistered device id c w E). reflexivity. }
  split_and!.
  - exact Hframe.
  - intros ip. rewrite Connect_unfold. cbn [snd roverConnections].
    apply lookup_insert_eq.
  - intros ip. rewrite !Connect_unfold. cbn [fst snd roverConnections].
    rewrite Hframe. split; reflexivity.
  - intros id' c'.
    destruct (roverConnections w !! id') as [rover|] eqn:E.
    + rewrite (invoke_registered_outcome device id' c' w rover E).
      apply invoke_registered_outcome. rewrite Hframe. exact E.
    + rewrite (invoke_unregistered device id' c' w E).
      rewrite invoke_unregistered by (rewrite Hframe; exact E). reflexivity.
Qed.

(** C9 (as amended): for a registered identifier, the reply to the GET
    decides how a device tool ends.  With a status outside 200 to 299 the
    HTTP client rejects and the call fails with
    [Request failed with status code {status}]; a failure of the transport
    fails the call with the transport's message.  With a status from 200
    to 299 Speed, PWM, cmd_vel and Screen return their confirmation, and
    IMU returns its result text unless the response data has no string
    form, in which case the call fails with a [TypeError]. *)
Theorem C9_status_decides_the_outcome
  (device : string -> DeviceReply) (w : World) (id : string) (rover : Rover.t)
  (c : DeviceCall) :
  roverConnections w !! id = Some rover ->
  match device (raw_url (Rover.ip rover) c) with
  | NetworkFailure message =>
    fst (invoke device id c w) = Throw (AxiosError message)
  | HttpResponse st body =>
    if (200 <=? st) && (st <? 300)
    then fst (invoke device id c w) = completion c (transformResponse (stripBOM body))
         /\ (c <> CallIMU -> exists result, fst (invoke device id c w) = Return result)
    else fst (invoke device id c w)
         = Throw (AxiosError ("Request failed with status code " +:+ pretty st))
  end.
Proof.
  intros Hsome. rewrite (invoke_registered_outcome device id c w rover Hsome).
  destruct (device (raw_url (Rover.ip rover) c)) as [m | st body]; [reflexivity |].
  unfold validateStatus. destruct ((200 <=? st) && (st <? 300)); [| reflexivity].
  split; [reflexivity |]. intros Hc.
  destruct c; try (eexists; reflexivity). contradiction Hc. reflexivity.
Qed.

Lemma C9_status_decides_the_outcome_witness :
  roverConnections (one_rover "10.0.0.5") !! "rover1"
  = Some (Rover.new "rover1" "10.0.0.5")
  /\ fst (invoke (answering 500 "") "rover1" (CallPWM (Number_of_Z 1) (Number_of_Z 2))
                 (one_rover "10.0.0.5"))
     = Throw (AxiosError "Request failed with status code 500").
Proof.
  split; [reflexivity |].
  exact (C9_status_decides_the_outcome (answering 500 "") (one_rover "10.0.0.5") "rover1"
           (Rover.new "rover1" "10.0.0.5") (CallPWM (Number_of_Z 1) (Number_of_Z 2))
           eq_refl).
Defined.

(** C9 as stated fails: when the rover answers Speed with the status 404,
    the call does not return a confirmation, it throws. *)
Lemma C9_non_2xx_counterexample :
  let w := one_rover "10.0.0.5" in
  let c := CallSpeed (Number_of_Z 50) (Number_of_Z (-50)) in
  let device := answering 404 "Not Found" in
  roverConnections w !! "rover1" = Some (Rover.new "rover1" "10.0.0.5")
  /\ device (raw_url "10.0.0.5" c) = HttpResponse 404 "Not Found"
  /\ fst (invoke device "rover1" c w)
     = Throw (AxiosError "Request failed with status code 404")
  /\ ~ exists result, fst (invoke device "rover1" c w) = Return result.
Proof.
  cbv zeta. split_and!; [reflexivity | reflexivity | reflexivity |].
  intros [result H]. vm_compute in H. discriminate.
Qed.

(** ** The claims about Connect and the registry *)

Lemma connect_all_from_empty (ips : list string) :
  exists w,
    connect_all ips empty_world
    = (Return (imap (fun i ip => connected ip (rover_name (S i))) ips), w)
    /\ numbered (roverConnections w)
    /\ size (roverConnections w) = length ips
    /\ (forall i ip, ips !! i = Some ip ->
          roverConnections w !! rover_name (S i) = Some (Rover.new (rover_name (S i)) ip)).
Proof.
  destruct (connect_all_numbered ips empty_world numbered_empty)
    as (w & Hrun & _ & Hnum & Hsize & Hnew & _).
  cbn [empty_world roverConnections] in *. rewrite map_size_empty in *.
  exists w. split_and!.
  - rewrite Hrun. reflexivity.
  - exact Hnum.
  - exact Hsize.
  - intros i ip Hi. exact (Hnew i ip Hi).
Qed.

(** C3: N calls of Connect on the empty registry all return, the i-th with
    the text that names [rover{i}] for the i-th address; the names
    [rover1] to [roverN] are pairwise distinct and are exactly the keys of
    the registry afterwards, each holding the address of its call; the
    registry has N entries, and one more Connect returns [rover{N+1}] and
    grows it by exactly one entry. *)
Theorem C3_connect_names_rovers_in_order (ips : list string) :
  exists w,
    connect_all ips empty_world
    = (Return (imap (fun i ip => connected ip (rover_name (S i))) ips), w)
    /\ size (roverConnections w) = length ips
    /\ NoDup (rover_name <$> seq 1 (length ips))
    /\ (forall key, is_Some (roverConnections w !! key)
                    <-> key ∈ rover_name <$> seq 1 (length ips))
    /\ (forall i ip, ips !! i = Some ip ->
          roverConnections w !! rover_name (S i) = Some (Rover.new (rover_name (S i)) ip))
    /\ (forall ip,
          fst (Connect ip w) = Return (connected ip (rover_name (S (length ips))))
          /\ size (roverConnections (snd (Connect ip w))) = S (size (roverConnections w))).
Proof.
  destruct (connect_all_from_empty ips) as (w & Hrun & Hnum & Hsize & Hnew).
  exists w. split_and!.
  - exact Hrun.
  - exact Hsize.
  - apply NoDup_fmap_2_strong; [| apply NoDup_seq].
    intros n k _ _ H. exact (rover_name_inj n k H).
  - intros key. rewrite (Hnum key), Hsize, list_elem_of_fmap. split.
    + intros (k & Hk & ->). exists k. split; [reflexivity |]. apply elem_of_seq. lia.
    + intros (k & -> & Hk). apply elem_of_seq in Hk. exists k. split; [lia | reflexivity].
  - exact Hnew.
  - intros ip. rewrite Connect_unfold. cbn [fst snd roverConnections]. split.
    + rewrite Hsize. do 3 f_equal. lia.
    + apply registered_size, Hnum.
Qed.

(** C5: after any number of Connect calls on the empty registry, an
    identifier that none of them returned has no entry, and every device
    tool called with it throws the not-found error; and in any world, the
    identifier that Connect returns for an address resolves, right after
    the call, to a rover with exactly that address, which is where a device
    tool then sends its request. *)
Theorem C5_registry_round_trip
  (device : string -> DeviceReply) (ips : list string) (results : list CallToolResult)
  (id : string) :
  fst (connect_all ips empty_world) = Return results ->
  (forall i ip, ips !! i = Some ip -> results !! i <> Some (connected ip id)) ->
  (roverConnections (snd (connect_all ips empty_world)) !! id = None
   /\ forall c, fst (invoke device id c (snd (connect_all ips empty_world)))
                = Throw (Error ("Rover with ID " +:+ id +:+ " not found")))
  /\ (forall w ip, exists roverId,
        fst (Connect ip w) = Return (connected ip roverId)
        /\ fst (Map_get roverId (snd (Connect ip w))) = Return (Some (Rover.new roverId ip))
        /\ Rover.ip (Rover.new roverId ip) = ip
        /\ forall c, requests (snd (invoke device roverId c (snd (Connect ip w))))
                     = requests w ++ [raw_url ip c]).
Proof.
  intros Hresults Hnever.
  destruct (connect_all_from_empty ips) as (w & Hrun & Hnum & Hsize & Hnew).
  rewrite Hrun in *. cbn [fst snd] in *. injection Hresults as <-.
  assert (Hnone : roverConnections w !! id = None).
  { destruct (roverConnections w !! id) as [r|] eqn:E; [| reflexivity].
    destruct (proj1 (Hnum id) (mk_is_Some _ _ E)) as (k & Hk & ->).
    destruct k as [|i]; [lia |].
    destruct (lookup_lt_is_Some_2 ips i) as [ip Hip]; [lia |].
    exfalso. apply (Hnever i ip Hip).
    rewrite list_lookup_imap, Hip. reflexivity. }
  split.
  - split; [exact Hnone |]. intros c.
    rewrite (invoke_unregistered device id c w Hnone). reflexivity.
  - intros w0 ip. exists (rover_name (size (roverConnections w0) + 1)).
    rewrite Connect_unfold. cbn [fst snd].
    assert (Hget : registered ip (roverConnections w0)
                   !! rover_name (size (roverConnections w0) + 1)
                   = Some (Rover.new (rover_name (size (roverConnections w0) + 1)) ip))
      by apply lookup_insert_eq.
    split_and!.
    + reflexivity.
    + unfold Map_get. cbn [fst roverConnections]. rewrite Hget. reflexivity.
    + reflexivity.
    + intros c.
      rewrite (invoke_registered_world device _ c
                 {| roverConnections := registered ip (roverConnections w0);
                    requests := requests w0 |} _ Hget).
      reflexivity.
Qed.

Lemma C5_registry_round_trip_witness :
  roverConnections (snd (connect_all ["10.0.0.5"; "10.0.0.6"] empty_world)) !! "rover3"
  = None
  /\ fst (invoke (answering 200 "") "rover3" CallIMU
                 (snd (connect_all ["10.0.0.5"; "10.0.0.6"] empty_world)))
     = Throw (Error "Rover with ID rover3 not found").
Proof.
  destruct (C5_registry_round_trip (answering 200 "") ["10.0.0.5"; "10.0.0.6"]
              [connected "10.0.0.5" "rover1"; connected "10.0.0.6" "rover2"] "rover3")
    as ((Hnone & Hthrow) & _).
  - reflexivity.
  - intros [|[|i]] ip Hip; cbn in Hip; try discriminate;
      injection Hip as <-; cbn; intros H; discriminate H.
  - split; [exact Hnone | exact (Hthrow CallIMU)].
Defined.

(** ** The claim about the express routes *)

(** C10: whatever the request holds, the client identifier computed by
    [GET /sse] and [POST /messages] is truthy, so neither route ever sends
    the 400 answer: [/sse] always connects a new transport, [/messages]
    either hands the message to the stored transport or answers 404; the
    identifier is the literal [defaultClientId] when the query parameter
    and the header are both absent. *)
Theorem C10_missing_client_id_branch_unreachable
  (Response : Type) (req : Request) (res : Response)
  (transports : gmap string (SSEServerTransport Response)) :
  truthy (clientId_of req) = true
  /\ fst (get_sse req res transports)
     = ServerConnect {| endpoint := "/messages"; res := res |}
  /\ fst (post_messages req transports)
     = match transports_get (clientId_of req) transports with
       | None => Send 404 "Transport not found for clientId"
       | Some transport => HandlePostMessage transport
       end
  /\ (forall body, fst (get_sse req res transports) <> Send 400 body)
  /\ (forall body, fst (post_messages req transports) <> Send 400 body)
  /\ clientId_of {| query_clientId := QUndefined; header_client_id := None |}
     = QString "defaultClientId".
Proof.
  assert (Htruthy : truthy (clientId_of req) = true).
  { unfold clientId_of, or_else.
    destruct (truthy (query_clientId req)) eqn:Hq; cbv iota.
    - rewrite Hq. exact Hq.
    - destruct (truthy (header_value (header_client_id req))) eqn:Hh;
        [exact Hh | reflexivity]. }
  assert (Hsse : fst (get_sse req res transports)
                 = ServerConnect {| endpoint := "/messages"; res := res |}).
  { unfold get_sse. rewrite Htruthy. reflexivity. }
  assert (Hpost : fst (post_messages req transports)
                  = match transports_get (clientId_of req) transports with
                    | None => Send 404 "Transport not found for clientId"
                    | Some transport => HandlePostMessage transport
                    end).
  { unfold post_messages. rewrite Htruthy. cbn [negb].
    destruct (transports_get (clientId_of req) transports); reflexivity. }
  split_and!.
  - exact Htruthy.
  - exact Hsse.
  - exact Hpost.
  - intros body. rewrite Hsse. discriminate.
  - intros body. rewrite Hpost.
    destruct (transports_get (clientId_of req) transports); discriminate.
  - reflexivity.
Qed.

(** ** Further properties: the server over any sequence of calls *)

Lemma invoke_keeps_registry device id c w :
  roverConnections (snd (invoke device id c w)) = roverConnections w.
Proof.
  destruct (roverConnections w !! id) as [rover|] eqn:E.
  - rewrite (invoke_registered_world device id c w rover E). reflexivity.
  - rewrite (invoke_unregistered device id c w E). reflexivity.
Qed.

(** A device call either throws its own error and requests nothing, or
    requests one URL and ends otherwise. *)
Lemma invoke_requests device id c w :
  (fst (invoke device id c w) = Throw (not_found id)
   /\ requests (snd (invoke device id c w)) = requests w)
  \/ (thrown_errors [fst (invoke device id c w)] = O
      /\ exists url, requests (snd (invoke device id c w)) = requests w ++ [url]).
Proof.
  destruct (roverConnections w !! id) as [rover|] eqn:E.
  - right. rewrite (invoke_registered_world device id c w rover E),
      (invoke_registered_outcome device id c w rover E).
    split; [| eexists; reflexivity].
    destruct (device (raw_url (Rover.ip rover) c)) as [m | st body]; [reflexivity |].
    destruct (validateStatus st); [| reflexivity].
    destruct c; try reflexivity. unfold completion.
    destruct (ToString (transformResponse (stripBOM body))); reflexivity.
  - left. rewrite (invoke_unregistered device id c w E). split; reflexivity.
Qed.

Lemma serve_cons device t rest w :
  serve device (t :: rest) w
  = (fst (call_tool device t w) :: fst (serve device rest (snd (call_tool device t w))),
     snd (serve device rest (snd (call_tool device t w)))).
Proof.
  cbn [serve]. destruct (call_tool device t w) as [o w1]. cbn [fst snd].
  destruct (serve device rest w1) as [os w2]. reflexivity.
Qed.

Lemma registered_keyed ip m : keyed m -> keyed (registered ip m).
Proof.
  intros Hk key rover. unfold registered.
  destruct (decide (rover_name (size m + 1) = key)) as [<- | Hne].
  - rewrite lookup_insert_eq. intros [= <-]. reflexivity.
  - rewrite lookup_insert_ne by exact Hne. apply Hk.
Qed.

Lemma registered_keeps ip m key rover :
  numbered m -> m !! key = Some rover -> registered ip m !! key = Some rover.
Proof.
  intros Hm Hkey. unfold registered. rewrite lookup_insert_ne; [exact Hkey |].
  intros <-. rewrite (numbered_fresh m Hm) in Hkey. discriminate.
Qed.

(** Over a numbered table, any sequence of calls keeps the table numbered
    and keyed, adds one entry per Connect, keeps every entry it found, and
    answers each Connect with the next name. *)
Lemma serve_numbered device calls : forall w,
  numbered (roverConnections w) -> keyed (roverConnections w) ->
  numbered (roverConnections (snd (serve device calls w)))
  /\ keyed (roverConnections (snd (serve device calls w)))
  /\ size (roverConnections (snd (serve device calls w)))
     = (size (roverConnections w) + connects calls)%nat
  /\ (forall key rover, roverConnections w !! key = Some rover ->
        roverConnections (snd (serve device calls w)) !! key = Some rover)
  /\ (forall i ip, calls !! i = Some (CallConnect ip) ->
        fst (serve device calls w) !! i
        = Some (Return (connected ip
                  (rover_name (size (roverConnections w) + 1 + connects (take i calls))))))
  /\ length (fst (serve device calls w)) = length calls.
Proof.
  induction calls as [|t rest IH]; intros w Hnum Hkey.
  - cbn [serve fst snd connects length]. split_and!; auto.
    intros i ip Hi. rewrite lookup_nil in Hi. discriminate.
  - rewrite serve_cons. cbn [fst snd].
    set (w1 := snd (call_tool device t w)).
    assert (Hstep : numbered (roverConnections w1) /\ keyed (roverConnections w1)
                    /\ size (roverConnections w1)
                       = (size (roverConnections w) + connects [t])%nat
                    /\ (forall key rover, roverConnections w !! key = Some rover ->
                          roverConnections w1 !! key = Some rover)).
    { unfold w1. destruct t as [ip | id c]; cbn [call_tool connects].
      - rewrite Connect_unfold. cbn [snd roverConnections]. split_and!.
        + apply registered_numbered, Hnum.
        + apply registered_keyed, Hkey.
        + rewrite (registered_size ip _ Hnum). lia.
        + intros key rover. apply registered_keeps, Hnum.
      - rewrite invoke_keeps_registry.
        split_and!; [exact Hnum | exact Hkey | lia | auto]. }
    destruct Hstep as (Hnum1 & Hkey1 & Hsize1 & Hkeep1).
    destruct (IH w1 Hnum1 Hkey1) as (Hnum2 & Hkey2 & Hsize2 & Hkeep2 & Hout2 & Hlen2).
    split_and!.
    + exact Hnum2.
    + exact Hkey2.
    + rewrite Hsize2, Hsize1. destruct t; cbn [connects]; lia.
    + intros key rover Hk. apply Hkeep2, Hkeep1, Hk.
    + intros [|i] ip Hi.
      * cbn in Hi. injection Hi as ->. rewrite lookup_cons.
        cbn [take connects call_tool]. rewrite Connect_unfold. cbn [fst].
        do 4 f_equal. lia.
      * cbn in Hi. rewrite lookup_cons, (Hout2 i ip Hi), Hsize1.
        do 4 f_equal. destruct t; cbn [take connects]; lia.
    + cbn [length]. rewrite Hlen2. reflexivity.
Qed.

Lemma keyed_empty : keyed ∅.
Proof. intros key rover H. rewrite lookup_empty in H. discriminate. Qed.

Lemma thrown_errors_cons o os :
  thrown_errors (o :: os) = (thrown_errors [o] + thrown_errors os)%nat.
Proof. destruct o as [r | [m | m | m]]; reflexivity. Qed.

(** X3: over any sequence of tool calls, the log of requested URLs only
    grows at its end, and it grows by exactly one URL for each device call
    that did not throw the handler's own not-found error: Connect requests
    nothing, an unknown identifier requests nothing, and a request that
    failed is not repeated. *)
Theorem X3_one_request_per_addressed_call device calls : forall w,
  exists new, requests (snd (serve device calls w)) = requests w ++ new
              /\ (length new + thrown_errors (fst (serve device calls w))
                  = device_calls calls)%nat.
Proof.
  induction calls as [|t rest IH]; intros w.
  - exists []. cbn. rewrite app_nil_r. split; reflexivity.
  - rewrite serve_cons. cbn [fst snd]. rewrite thrown_errors_cons.
    destruct (IH (snd (call_tool device t w))) as (new2 & Hreq2 & Hlen2).
    destruct t as [ip | id c]; cbn [call_tool device_calls] in *.
    + rewrite Connect_unfold in *. cbn [fst snd requests thrown_errors] in *.
      exists new2. split; [exact Hreq2 | exact Hlen2].
    + destruct (invoke_requests device id c w) as [[Hout Hreq1] | [Hout [url Hreq1]]].
      * exists new2. rewrite Hreq2, Hreq1, Hout. split; [reflexivity |].
        cbn [thrown_errors not_found]. lia.
      * exists (url :: new2). rewrite Hreq2, Hreq1, Hout, <- app_assoc.
        split; [reflexivity | cbn [length]; lia].
Qed.

(** X1: in the state reached from the empty registry by any sequence of
    Connect and device calls, whatever the device calls did, the registry
    holds as many entries as Connect was called, its keys are exactly
    [rover1] to that number, every rover is stored under its own
    identifier, and the Connect at any position returned the name numbered
    by the Connect calls up to it. *)
Theorem X1_names_under_any_interleaving
  (device : string -> DeviceReply) (calls : list ToolCall) :
  size (roverConnections (snd (serve device calls empty_world))) = connects calls
  /\ (forall key,
        is_Some (roverConnections (snd (serve device calls empty_world)) !! key)
        <-> exists k, (1 <= k <= connects calls)%nat /\ key = rover_name k)
  /\ (forall key rover,
        roverConnections (snd (serve device calls empty_world)) !! key = Some rover ->
        Rover.id rover = key)
  /\ (forall i ip, calls !! i = Some (CallConnect ip) ->
        fst (serve device calls empty_world) !! i
        = Some (Return (connected ip (rover_name (S (connects (take i calls))))))).
Proof.
  destruct (serve_numbered device calls empty_world numbered_empty keyed_empty)
    as (Hnum & Hkey & Hsize & _ & Hout & _).
  cbn [empty_world roverConnections] in Hsize, Hout.
  rewrite map_size_empty in Hsize, Hout. cbn [Nat.add] in Hsize, Hout.
  split_and!.
  - exact Hsize.
  - intros key. rewrite (Hnum key), Hsize. reflexivity.
  - exact Hkey.
  - exact Hout.
Qed.

(** X2: a registration is permanent.  Whatever calls came before a Connect
    and whatever calls come after it, the identifier it returned still
    resolves to the address it was given, and a device call with that
    identifier sends its request there. *)
Theorem X2_registration_is_permanent
  (device : string -> DeviceReply) (before after : list ToolCall) (ip : string) :
  let w1 := snd (serve device before empty_world) in
  let roverId := rover_name (size (roverConnections w1) + 1) in
  let w3 := snd (serve device after (snd (Connect ip w1))) in
  fst (Connect ip w1) = Return (connected ip roverId)
  /\ roverConnections w3 !! roverId = Some (Rover.new roverId ip)
  /\ (forall c, requests (snd (invoke device roverId c w3))
                = requests w3 ++ [raw_url ip c]).
Proof.
  intros w1 roverId w3.
  destruct (serve_numbered device before empty_world numbered_empty keyed_empty)
    as (Hnum1 & Hkey1 & _).
  fold w1 in Hnum1, Hkey1.
  assert (Hentry : roverConnections w3 !! roverId = Some (Rover.new roverId ip)).
  { unfold w3. rewrite Connect_unfold. cbn [snd].
    apply (serve_numbered device after).
    - cbn [roverConnections]. apply registered_numbered, Hnum1.
    - cbn [roverConnections]. apply registered_keyed, Hkey1.
    - cbn [roverConnections]. apply lookup_insert_eq. }
  split_and!.
  - rewrite Connect_unfold. reflexivity.
  - exact Hentry.
  - intros c. rewrite (invoke_registered_world device roverId c w3 _ Hentry). reflexivity.
Qed.

(** X4: Connect does not contact the rover.  It returns its identifier and
    requests nothing even for an address where nothing answers; the first
    device call with that identifier then fails with the transport's
    error after its one request, and the registration stays. *)
Theorem X4_connect_does_not_probe
  (device : string -> DeviceReply) (w : World) (ip message : string) (c : DeviceCall) :
  device (raw_url ip c) = NetworkFailure message ->
  let roverId := rover_name (size (roverConnections w) + 1) in
  let w1 := snd (Connect ip w) in
  fst (Connect ip w) = Return (connected ip roverId)
  /\ requests w1 = requests w
  /\ fst (invoke device roverId c w1) = Throw (AxiosError message)
  /\ requests (snd (invoke device roverId c w1)) = requests w ++ [raw_url ip c]
  /\ roverConnections (snd (invoke device roverId c w1)) !! roverId
     = Some (Rover.new roverId ip).
Proof.
  intros Hfail roverId w1.
  assert (Hentry : roverConnections w1 !! roverId = Some (Rover.new roverId ip)).
  { unfold w1. rewrite Connect_unfold. cbn [snd roverConnections].
    apply lookup_insert_eq. }
  split_and!.
  - rewrite Connect_unfold. reflexivity.
  - unfold w1. rewrite Connect_unfold. reflexivity.
  - rewrite (invoke_registered_outcome device roverId c w1 _ Hentry).
    cbn [Rover.ip]. rewrite Hfail. reflexivity.
  - rewrite (invoke_registered_world device roverId c w1 _ Hentry).
    unfold w1. rewrite Connect_unfold. reflexivity.
  - rewrite invoke_keeps_registry. exact Hentry.
Qed.

Lemma X4_connect_does_not_probe_witness :
  fst (invoke (fun _ => NetworkFailure "connect ECONNREFUSED 10.0.0.9:80") "rover1"
              (CallPWM (Number_of_Z 100) (Number_of_Z 100))
              (snd (Connect "10.0.0.9" empty_world)))
  = Throw (AxiosError "connect ECONNREFUSED 10.0.0.9:80").
Proof.
  destruct (X4_connect_does_not_probe
              (fun _ => NetworkFailure "connect ECONNREFUSED 10.0.0.9:80") empty_world
              "10.0.0.9" "connect ECONNREFUSED 10.0.0.9:80"
              (CallPWM (Number_of_Z 100) (Number_of_Z 100)) eq_refl)
    as (_ & _ & Hthrow & _).
  exact Hthrow.
Defined.

(** X5: Speed, PWM, cmd_vel and Screen never look at what the rover
    answered.  Two rovers that both answer the request with an accepted
    status give the same result, whatever bodies they send. *)
Theorem X5_body_is_ignored_except_by_IMU
  (device1 device2 : string -> DeviceReply) (w : World) (id : string) (rover : Rover.t)
  (c : DeviceCall) (st1 st2 : Z) (body1 body2 : string) :
  roverConnections w !! id = Some rover ->
  c <> CallIMU ->
  device1 (raw_url (Rover.ip rover) c) = HttpResponse st1 body1 ->
  device2 (raw_url (Rover.ip rover) c) = HttpResponse st2 body2 ->
  validateStatus st1 = true ->
  validateStatus st2 = true ->
  fst (invoke device1 id c w) = fst (invoke device2 id c w).
Proof.
  intros Hsome Hc H1 H2 Hok1 Hok2.
  rewrite (invoke_registered_outcome device1 id c w rover Hsome), H1, Hok1.
  rewrite (invoke_registered_outcome device2 id c w rover Hsome), H2, Hok2.
  destruct c; try reflexivity. contradiction Hc. reflexivity.
Qed.

Lemma X5_body_is_ignored_except_by_IMU_witness :
  fst (invoke (answering 200 "ok") "rover1" (CallScreen (Number_of_Z 1) "hello")
              (one_rover "10.0.0.5"))
  = fst (invoke (answering 204 (Str.dq "{'error':'no screen'}")) "rover1"
                (CallScreen (Number_of_Z 1) "hello") (one_rover "10.0.0.5")).
Proof.
  apply (X5_body_is_ignored_except_by_IMU (answering 200 "ok")
           (answering 204 (Str.dq "{'error':'no screen'}")) (one_rover "10.0.0.5")
           "rover1" (Rover.new "rover1" "10.0.0.5") (CallScreen (Number_of_Z 1) "hello")
           200 204 "ok" (Str.dq "{'error':'no screen'}"));
    [reflexivity | discriminate | reflexivity | reflexivity | reflexivity | reflexivity].
Defined.

(** X6: when the rover answers IMU with a body that is a JSON object, the
    data of the object is lost.  The response data is then the parsed
    object, and the template literal writes it as [[object Object]]
    whatever it holds; if the object has a property named [toString], the
    conversion throws instead and the call fails with a [TypeError]. *)
Theorem X6_IMU_json_object_is_lost
  (device : string -> DeviceReply) (w : World) (id : string) (rover : Rover.t)
  (st : Z) (body : string) (fields : list (string * JSValue)) :
  roverConnections w !! id = Some rover ->
  device (raw_url (Rover.ip rover) CallIMU) = HttpResponse st body ->
  validateStatus st = true ->
  JSON_parse (stripBOM body) = Some (JSObject fields) ->
  fst (IMU device id w)
  = if has_own "toString" fields
    then Throw (TypeError "Cannot convert object to primitive value")
    else Return {| content := [{| type := "text"; text := "result[object Object]" |}] |}.
Proof.
  intros Hsome Hreply Hok Hparse.
  change (IMU device id w) with (invoke device id CallIMU w).
  rewrite (invoke_registered_outcome device id CallIMU w rover Hsome), Hreply, Hok.
  unfold completion, transformResponse. rewrite Hparse. cbn [ToString].
  destruct (has_own "toString" fields); reflexivity.
Qed.

Lemma X6_IMU_json_object_is_lost_witness :
  fst (IMU (answering 200 (Str.dq "{'T':1002,'r':0.5,'p':-1.25,'temp':31}")) "rover1"
           (one_rover "10.0.0.5"))
  = Return {| content := [{| type := "text"; text := "result[object Object]" |}] |}.
Proof.
  apply (X6_IMU_json_object_is_lost
           (answering 200 (Str.dq "{'T':1002,'r':0.5,'p':-1.25,'temp':31}"))
           (one_rover "10.0.0.5") "rover1" (Rover.new "rover1" "10.0.0.5") 200
           (Str.dq "{'T':1002,'r':0.5,'p':-1.25,'temp':31}")
           [("T", JSNumber (Decimal false 1002 0)); ("r", JSNumber (Decimal false 5 (-1)));
            ("p", JSNumber (Decimal true 125 (-2))); ("temp", JSNumber (Decimal false 31 0))]);
    reflexivity.
Defined.

(** A body whose object has a property named [toString] makes IMU throw
    after its request was answered. *)
Example IMU_object_with_toString :
  fst (IMU (answering 200 (Str.dq "{'toString':1}")) "rover1" (one_rover "10.0.0.5"))
  = Throw (TypeError "Cannot convert object to primitive value").
Proof. reflexivity. Qed.

(** ** Further properties: the listening port *)

Lemma decimal_digit_cases (d : N) :
  (d < 10)%N ->
  d = 0%N \/ d = 1%N \/ d = 2%N \/ d = 3%N \/ d = 4%N
  \/ d = 5%N \/ d = 6%N \/ d = 7%N \/ d = 8%N \/ d = 9%N.
Proof. lia. Qed.

(** The characters of a numeral are decimal digits, most significant
    first and without a leading zero; read as a number in radix 10 they
    give the number back. *)
Lemma pretty_N_go_digits (x : N) : forall s,
  exists ds,
    Str.chars (pretty_N_go x s) = map pretty_N_char ds ++ Str.chars s
    /\ Forall (fun d => (d < 10)%N) ds
    /\ (exists p, forall acc,
          fold_left (fun a d => (a * 10 + d)%N) ds acc = (acc * p + x)%N)
    /\ ((0 < x)%N -> exists d ds', ds = d :: ds' /\ d <> 0%N).
Proof.
  induction (N.lt_wf_0 x) as [x _ IH]. intros s.
  destruct (decide (0 < x)%N) as [Hpos | Hzero].
  - rewrite (pretty_N_go_step x s Hpos).
    assert (Hlt : (x `div` 10 < x)%N) by (apply N.div_lt; lia).
    assert (Hm : (x `mod` 10 < 10)%N) by (apply N.mod_upper_bound; lia).
    destruct (IH _ Hlt (String (pretty_N_char (x `mod` 10)) s))
      as (ds & Hchars & Hall & (p & Hfold) & Hlead).
    exists (ds ++ [x `mod` 10])%N. split_and!.
    + rewrite Hchars, map_app, <- app_assoc. reflexivity.
    + apply Forall_app. split; [exact Hall | repeat constructor; exact Hm].
    + exists (p * 10)%N. intros acc. rewrite fold_left_app, Hfold. cbn [fold_left].
      pose proof (N.div_mod x 10 ltac:(lia)) as Hdm. nia.
    + intros _. destruct (decide (0 < x `div` 10)%N) as [Hq | Hq].
      * destruct (Hlead Hq) as (d & ds' & -> & Hd).
        exists d, (ds' ++ [x `mod` 10])%N. split; [reflexivity | exact Hd].
      * assert (Hq0 : (x `div` 10 = 0)%N) by (apply N.le_0_r, N.nlt_ge, Hq).
        rewrite Hq0, pretty_N_go_0 in Hchars.
        destruct ds as [|d ds'].
        -- exists (x `mod` 10)%N, []. split; [reflexivity |].
           pose proof (N.div_mod x 10 ltac:(lia)). lia.
        -- exfalso. apply (f_equal (@length ascii)) in Hchars.
           cbn in Hchars. rewrite length_app in Hchars. cbn in Hchars. lia.
  - assert (x = 0%N) as -> by lia. rewrite pretty_N_go_0.
    exists []. split_and!.
    + reflexivity.
    + constructor.
    + exists 1%N. intros acc. cbn. lia.
    + intros H. lia.
Qed.

Lemma digits_of_numeral (ds : list N) (rest : list ascii) :
  Forall (fun d => (d < 10)%N) ds ->
  ParseInt.digits 10 (map pretty_N_char ds ++ rest) = ds ++ ParseInt.digits 10 rest.
Proof.
  induction 1 as [|d ds Hd _ IH]; [reflexivity |].
  cbn [map app ParseInt.digits]. rewrite IH.
  destruct (decimal_digit_cases d Hd) as [-> | [-> | [-> | [-> | [-> | [-> | [-> | [-> | [-> | ->]]]]]]]]];
    reflexivity.
Qed.

Lemma trim_start_digit (d : N) (rest : list ascii) :
  (d < 10)%N ->
  ParseInt.trim_start (pretty_N_char d :: rest) = pretty_N_char d :: rest.
Proof.
  intros Hd.
  destruct (decimal_digit_cases d Hd) as [-> | [-> | [-> | [-> | [-> | [-> | [-> | [-> | [-> | ->]]]]]]]]];
    reflexivity.
Qed.

Lemma parse_numeral (d : N) (ds : list N) :
  (d < 10)%N -> d <> 0%N -> Forall (fun d => (d < 10)%N) ds ->
  ParseInt.parse (map pretty_N_char (d :: ds))
  = Some (Binary64.round (Decimal false (ParseInt.value 10 (d :: ds)) 0)).
Proof.
  intros Hd Hd0 Hall.
  pose proof (digits_of_numeral (d :: ds) [] (Forall_cons_2 (fun d => (d < 10)%N) _ _ Hd Hall))
    as Hdigits.
  rewrite !app_nil_r in Hdigits. cbn [map] in Hdigits |- *.
  unfold ParseInt.parse. rewrite (trim_start_digit d _ Hd).
  set (l := map pretty_N_char ds) in *.
  destruct (decimal_digit_cases d Hd) as [-> | [-> | [-> | [-> | [-> | [-> | [-> | [-> | [-> | ->]]]]]]]]];
    try (contradiction Hd0; reflexivity);
    cbv [pretty_N_char] in Hdigits |- *; rewrite Hdigits; reflexivity.
Qed.

Lemma parseInt_numeral (n : N) :
  parseInt (pretty n) = Some (Binary64.round (Decimal false n 0)).
Proof.
  unfold pretty, pretty_N. destruct (decide (n = 0%N)) as [-> | Hn]; [reflexivity |].
  destruct (pretty_N_go_digits n "") as (ds & Hchars & Hall & (p & Hfold) & Hlead).
  destruct (Hlead ltac:(lia)) as (d & ds' & -> & Hd).
  cbn [Str.chars list_ascii_of_string] in Hchars. rewrite app_nil_r in Hchars.
  unfold parseInt. fold Str.chars. rewrite Hchars.
  inversion Hall as [|? ? Hd10 Hall']. subst.
  rewrite (parse_numeral d ds' Hd10 Hd Hall').
  unfold ParseInt.value. rewrite Hfold. reflexivity.
Qed.

(** An integer below [2^53] is read as itself. *)
Lemma round_small_integer (negative : bool) (n : N) :
  (n < 2 ^ 53)%N -> Binary64.round (Decimal negative n 0) = Decimal negative n 0.
Proof.
  intros Hn. unfold Binary64.round.
  destruct (n =? 0)%N eqn:H0; [apply N.eqb_eq in H0; subst; reflexivity |].
  cbn [Z.eqb andb]. apply N.ltb_lt in Hn. rewrite Hn. reflexivity.
Qed.

Lemma numeral_not_empty (n : N) : String.eqb (pretty n) "" = false.
Proof.
  apply String.eqb_neq. intros Hempty.
  pose proof (parseInt_numeral n) as H. rewrite Hempty in H. discriminate H.
Qed.

(** X7: the listening port is 3000 when the process has no third argument
    or an empty one, and when that argument is the decimal numeral of a
    natural number below [2^53] the port is that number, whatever
    arguments follow. *)
Theorem X7_port_from_the_arguments (node script : string) (rest : list string) (n : N) :
  (n < 2 ^ 53)%N ->
  port [node; script] = Some (Number_of_Z 3000)
  /\ port (node :: script :: "" :: rest) = Some (Number_of_Z 3000)
  /\ port (node :: script :: pretty n :: rest) = Some (Decimal false n 0).
Proof.
  intros Hn. split_and!; [reflexivity | reflexivity |].
  unfold port. change ((node :: script :: pretty n :: rest) !! 2%nat) with (Some (pretty n)).
  cbv beta iota. rewrite numeral_not_empty, parseInt_numeral.
  rewrite (round_small_integer false n Hn). reflexivity.
Qed.

Lemma X7_port_from_the_arguments_witness :
  port ["node"; "build/index.js"; "8080"] = Some (Decimal false 8080 0).
Proof.
  destruct (X7_port_from_the_arguments "node" "build/index.js" [] 8080 eq_refl)
    as (_ & _ & Hport).
  exact Hport.
Defined.

(** A numeral beyond [2^53] selects the nearest binary64 number. *)
Example port_is_rounded :
  port ["node"; "build/index.js"; "9007199254740993"]
  = Some (Decimal false 9007199254740992 0).
Proof. vm_compute. reflexivity. Qed.

(** X8: an argument that starts with a letter does not select the default
    port: [parseInt] finds no digit and the port is [NaN]. *)
Theorem X8_port_of_a_word_is_NaN
  (node script : string) (rest : list string) (c : ascii) (text : string) :
  (let a := N_of_ascii c in
   ((65 <=? a) && (a <=? 90) || (97 <=? a) && (a <=? 122))%N) = true ->
  port (node :: script :: String c text :: rest) = None.
Proof.
  intros Hletter.
  destruct c as [[] [] [] [] [] [] [] []];
    vm_compute in Hletter; try discriminate Hletter; reflexivity.
Qed.

Lemma X8_port_of_a_word_is_NaN_witness :
  port ["node"; "build/index.js"; "port=8080"] = None.
Proof.
  apply (X8_port_of_a_word_is_NaN "node" "build/index.js" [] "p"%char "ort=8080").
  reflexivity.
Defined.

(** ** Further properties: the express routes *)

Lemma clientId_of_truthy (req : Request) : truthy (clientId_of req) = true.
Proof.
  unfold clientId_of, or_else.
  destruct (truthy (query_clientId req)) eqn:Hq; cbv iota.
  - rewrite Hq. exact Hq.
  - destruct (truthy (header_value (header_client_id req))) eqn:Hh;
      [exact Hh | reflexivity].
Qed.

Lemma clientId_of_anonymous (req : Request) :
  anonymous req = true -> clientId_of req = QString "defaultClientId".
Proof.
  unfold anonymous, clientId_of, or_else. intros H.
  apply andb_true_iff in H as [Hq Hh]. apply negb_true_iff in Hq, Hh.
  rewrite Hq, Hh. reflexivity.
Qed.

Lemma truthy_text (s : string) : s <> "" -> truthy (QString s) = true.
Proof. intros Hs. cbn [truthy]. apply negb_true_iff, String.eqb_neq, Hs. Qed.

Section RouteFacts.

Context {Response : Type}.
Implicit Types (transports : gmap string (SSEServerTransport Response)).

Lemma get_sse_string (req : Request) (res : Response) transports (s : string) :
  clientId_of req = QString s ->
  get_sse req res transports
  = (ServerConnect {| endpoint := "/messages"; res := res |},
     <[s := {| endpoint := "/messages"; res := res |}]> transports).
Proof.
  intros Hid. unfold get_sse. rewrite clientId_of_truthy, Hid. reflexivity.
Qed.

Lemma post_messages_string (req : Request) transports (s : string) :
  clientId_of req = QString s ->
  post_messages req transports
  = (match transports !! s with
     | None => Send 404 "Transport not found for clientId"
     | Some transport => HandlePostMessage transport
     end, transports).
Proof.
  intros Hid. unfold post_messages. rewrite clientId_of_truthy, Hid.
  cbn [negb transports_get]. destruct (transports !! s); reflexivity.
Qed.

(** X9: a stream opened by [GET /sse] under a client identifier that is a
    string is the one a [POST /messages] with the same identifier is
    handed to, wherever each request carried the identifier; the POST
    leaves the table of transports as it was. *)
Theorem X9_stream_then_post
  (req_sse req_post : Request) (res : Response) transports (s : string) :
  clientId_of req_sse = QString s ->
  clientId_of req_post = QString s ->
  post_messages req_post (snd (get_sse req_sse res transports))
  = (HandlePostMessage {| endpoint := "/messages"; res := res |},
     snd (get_sse req_sse res transports)).
Proof.
  intros Hsse Hpost.
  rewrite (get_sse_string req_sse res transports s Hsse). cbn [snd].
  rewrite (post_messages_string req_post _ s Hpost), lookup_insert_eq. reflexivity.
Qed.

(** X10: opening a stream for one client does not touch the others.  A
    POST whose client identifier differs from the one of the [GET /sse]
    is answered as before that GET; on a table that was empty it is
    answered 404. *)
Theorem X10_streams_are_separate
  (req_sse req_post : Request) (res : Response) transports :
  clientId_of req_post <> clientId_of req_sse ->
  fst (post_messages req_post (snd (get_sse req_sse res transports)))
  = fst (post_messages req_post transports)
  /\ fst (post_messages req_post (snd (get_sse req_sse res ∅)))
     = Send 404 "Transport not found for clientId".
Proof.
  intros Hne.
  assert (Hget : forall T, transports_get (clientId_of req_post)
                             (snd (get_sse req_sse res T))
                           = transports_get (clientId_of req_post) T).
  { intros T. unfold get_sse. rewrite clientId_of_truthy. cbn [negb snd].
    destruct (clientId_of req_sse) as [| a | |]; try reflexivity.
    destruct (clientId_of req_post) as [| b | |]; try reflexivity.
    cbn [transports_set transports_get]. apply lookup_insert_ne.
    intros ->. apply Hne. reflexivity. }
  unfold post_messages. rewrite clientId_of_truthy. cbn [negb].
  rewrite !Hget. split.
  - destruct (transports_get (clientId_of req_post) transports); reflexivity.
  - destruct (clientId_of req_post); cbn [transports_get];
      try rewrite lookup_empty; reflexivity.
Qed.

(** X11: clients that name no identifier share one.  Their requests all
    fall back to [defaultClientId], so the stream of the second anonymous
    [GET /sse] replaces the stream of the first, and an anonymous POST is
    handed to the second. *)
Theorem X11_anonymous_clients_share_a_stream
  (first second post : Request) (res1 res2 : Response) transports :
  anonymous first = true ->
  anonymous second = true ->
  anonymous post = true ->
  clientId_of first = QString "defaultClientId"
  /\ fst (post_messages post
            (snd (get_sse second res2 (snd (get_sse first res1 transports)))))
     = HandlePostMessage {| endpoint := "/messages"; res := res2 |}
  /\ snd (get_sse second res2 (snd (get_sse first res1 transports)))
     = snd (get_sse second res2 transports).
Proof.
  intros H1 H2 H3.
  apply clientId_of_anonymous in H1, H2, H3.
  rewrite !(get_sse_string first _ _ _ H1), !(get_sse_string second _ _ _ H2).
  cbn [snd]. rewrite (post_messages_string post _ _ H3), lookup_insert_eq.
  split_and!; [exact H1 | reflexivity | apply insert_insert_eq].
Qed.

(** X12: the query parameter takes precedence over the header, and an
    empty or absent query parameter gives way to the header.  With streams
    stored under [q] and under [h], a POST that carries both is handed to
    the stream of [q], and one whose query parameter is empty or absent
    is handed to the stream of [h]. *)
Theorem X12_query_before_header
  (q h : string) (tq th : SSEServerTransport Response) transports :
  q <> "" -> h <> "" ->
  transports !! q = Some tq ->
  transports !! h = Some th ->
  fst (post_messages {| query_clientId := QString q; header_client_id := Some h |}
                     transports) = HandlePostMessage tq
  /\ fst (post_messages {| query_clientId := QString ""; header_client_id := Some h |}
                        transports) = HandlePostMessage th
  /\ fst (post_messages {| query_clientId := QUndefined; header_client_id := Some h |}
                        transports) = HandlePostMessage th.
Proof.
  intros Hq Hh Htq Hth.
  assert (H1 : clientId_of {| query_clientId := QString q; header_client_id := Some h |}
               = QString q).
  { unfold clientId_of, or_else. cbn [query_clientId].
    rewrite !(truthy_text q Hq). reflexivity. }
  assert (H2 : forall v, truthy v = false ->
               clientId_of {| query_clientId := v; header_client_id := Some h |}
               = QString h).
  { intros v Hv. unfold clientId_of, or_else. cbn [query_clientId header_client_id header_value].
    rewrite Hv, !(truthy_text h Hh). reflexivity. }
  rewrite (post_messages_string _ transports q H1), Htq.
  rewrite (post_messages_string _ transports h (H2 (QString "") eq_refl)).
  rewrite (post_messages_string _ transports h (H2 QUndefined eq_refl)), Hth.
  split_and!; reflexivity.
Qed.

End RouteFacts.

Lemma X9_stream_then_post_witness :
  post_messages {| query_clientId := QString "abc"; header_client_id := None |}
    (snd (get_sse {| query_clientId := QUndefined; header_client_id := Some "abc" |}
                  7%nat ∅))
  = (HandlePostMessage {| endpoint := "/messages"; res := 7%nat |},
     snd (get_sse {| query_clientId := QUndefined; header_client_id := Some "abc" |}
                  7%nat ∅)).
Proof.
  apply (X9_stream_then_post
           {| query_clientId := QUndefined; header_client_id := Some "abc" |}
           {| query_clientId := QString "abc"; header_client_id := None |}
           7%nat ∅ "abc");
    reflexivity.
Defined.

Lemma X10_streams_are_separate_witness :
  fst (post_messages {| query_clientId := QString "b"; header_client_id := None |}
         (snd (get_sse {| query_clientId := QString "a"; header_client_id := None |}
                       7%nat ∅)))
  = Send 404 "Transport not found for clientId".
Proof.
  destruct (X10_streams_are_separate
              {| query_clientId := QString "a"; header_client_id := None |}
              {| query_clientId := QString "b"; header_client_id := None |}
              7%nat ∅) as [_ H404].
  - discriminate.
  - exact H404.
Defined.

Lemma X11_anonymous_clients_share_a_stream_witness :
  fst (post_messages {| query_clientId := QUndefined; header_client_id := Some "" |}
         (snd (get_sse {| query_clientId := QString ""; header_client_id := None |} 2%nat
                 (snd (get_sse {| query_clientId := QUndefined; header_client_id := None |}
                               1%nat ∅)))))
  = HandlePostMessage {| endpoint := "/messages"; res := 2%nat |}.
Proof.
  destruct (X11_anonymous_clients_share_a_stream
              {| query_clientId := QUndefined; header_client_id := None |}
              {| query_clientId := QString ""; header_client_id := None |}
              {| query_clientId := QUndefined; header_client_id := Some "" |}
              1%nat 2%nat ∅ eq_refl eq_refl eq_refl) as (_ & Hpost & _).
  exact Hpost.
Defined.

Lemma X12_query_before_header_witness :
  fst (post_messages {| query_clientId := QString "q"; header_client_id := Some "h" |}
         (<["q" := {| endpoint := "/messages"; res := 1%nat |}]>
            (<["h" := {| endpoint := "/messages"; res := 2%nat |}]> ∅)))
  = HandlePostMessage {| endpoint := "/messages"; res := 1%nat |}.
Proof.
  destruct (X12_query_before_header "q" "h"
              {| endpoint := "/messages"; res := 1%nat |}
              {| endpoint := "/messages"; res := 2%nat |}
              (<["q" := {| endpoint := "/messages"; res := 1%nat |}]>
                 (<["h" := {| endpoint := "/messages"; res := 2%nat |}]> ∅)))
    as (Hq & _).
  - discriminate.
  - discriminate.
  - reflexivity.
  - reflexivity.
  - exact Hq.
Defined.

(** ** Further properties: the rovers give no feedback to the server *)

Lemma invoke_world_any_device device1 device2 id c w :
  snd (invoke device1 id c w) = snd (invoke device2 id c w).
Proof.
  destruct (roverConnections w !! id) as [rover|] eqn:E.
  - rewrite (invoke_registered_world device1 id c w rover E),
      (invoke_registered_world device2 id c w rover E). reflexivity.
  - rewrite (invoke_unregistered device1 id c w E),
      (invoke_unregistered device2 id c w E). reflexivity.
Qed.

(** X13: what the server registers and which URLs it requests, in which
    order, is decided by the calls alone: two runs of the same calls
    against rovers that answer differently, or not at all, end with the
    same registry and the same log of requests. *)
Theorem X13_replies_do_not_steer_the_server
  (device1 device2 : string -> DeviceReply) (calls : list ToolCall) :
  forall w, snd (serve device1 calls w) = snd (serve device2 calls w).
Proof.
  induction calls as [|t rest IH]; intros w; [reflexivity |].
  rewrite !serve_cons. cbn [snd].
  assert (Hstep : snd (call_tool device1 t w) = snd (call_tool device2 t w)).
  { destruct t as [ip | id c]; cbn [call_tool];
      [reflexivity | apply invoke_world_any_device]. }
  rewrite Hstep. apply IH.
Qed.
